(** * umlizer.class_graph: class-structure extraction and UML labels

    A shallow embedding of [src/umlizer/class_graph.py].  Python objects
    are represented by what the code observes of them through reflection
    ([hasattr], [__name__], [__mro__], [__dict__], ...); dictionaries are
    insertion-ordered association lists, because the order of the entries
    decides the rendered label; exceptions are an error monad; the
    process-wide state ([sys.path], the two output streams) is threaded
    explicitly. *)

From stdpp Require Import gmap strings list pretty.
From Stdlib Require Import Ascii String ZArith Lia.

Set Default Proof Using "Type".

(* ===================================================================== *)
(** ** Python strings *)
(* ===================================================================== *)

Module Str.

(** [s.startswith(prefix)] *)
Definition startswith (s prefix : string) : bool := String.prefix prefix s.

(** [s.endswith(suffix)] *)
Definition endswith (s suffix : string) : bool :=
  let n := String.length s in
  let m := String.length suffix in
  (m <=? n)%nat && String.eqb (String.substring (n - m) m s) suffix.

(** [x in s] for two strings: [x] occurs in [s] as a substring. *)
Fixpoint contains (x s : string) : bool :=
  String.prefix x s ||
  match s with
  | EmptyString => false
  | String _ rest => contains x rest
  end.

(** [sep.join(parts)] *)
Definition join (sep : string) (parts : list string) : string :=
  String.concat sep parts.

(** [s.split(sep)] for a one-character separator: never the empty list. *)
Fixpoint split (sep : ascii) (s : string) : list string :=
  match s with
  | EmptyString => [EmptyString]
  | String c rest =>
      if Ascii.eqb c sep then EmptyString :: split sep rest
      else match split sep rest with
           | piece :: pieces => String c piece :: pieces
           | [] => [String c EmptyString]
           end
  end.

(** [c in chars] for a character. *)
Fixpoint mem (c : ascii) (chars : string) : bool :=
  match chars with
  | EmptyString => false
  | String d rest => Ascii.eqb c d || mem c rest
  end.

Definition is_empty (s : string) : bool :=
  match s with EmptyString => true | String _ _ => false end.

(** [s.rstrip(chars)]: [chars] is a SET of characters; every trailing
    character that belongs to it is removed. *)
Fixpoint rstrip (chars : string) (s : string) : string :=
  match s with
  | EmptyString => EmptyString
  | String c rest =>
      let rest' := rstrip chars rest in
      if is_empty rest' && mem c chars then EmptyString else String c rest'
  end.

(** Every character of [s] belongs to [chars]. *)
Fixpoint all_in (chars : string) (s : string) : bool :=
  match s with
  | EmptyString => true
  | String c rest => mem c chars && all_in chars rest
  end.

(** The last character of [s], if any. *)
Fixpoint last_char (s : string) : option ascii :=
  match s with
  | EmptyString => None
  | String c EmptyString => Some c
  | String _ rest => last_char rest
  end.

(** [fill * n] *)
Fixpoint repeat (fill : ascii) (n : nat) : string :=
  match n with
  | O => EmptyString
  | S n' => String fill (repeat fill n')
  end.

(** [s.center(width, fill)], with CPython's rounding of the left margin. *)
Definition center (s : string) (width : nat) (fill : ascii) : string :=
  let len := String.length s in
  if (width <=? len)%nat then s
  else
    let marg := (width - len)%nat in
    let left := (marg / 2 + (if Nat.odd marg && Nat.odd width then 1 else 0))%nat in
    repeat fill left +:+ s +:+ repeat fill (marg - left).

End Str.

(* ===================================================================== *)
(** ** Exceptions and the error monad *)
(* ===================================================================== *)

(** The exceptions the code can meet, by their place in Python's class
    hierarchy: [KeyboardInterrupt], [SystemExit] and [GeneratorExit] derive
    from [BaseException] only; everything else derives from [Exception]
    and carries its class name and [str(e)].  [typer_Exit] is
    [typer.Exit], a [RuntimeError]. *)
Inductive exception :=
| KeyboardInterrupt
| SystemExit (code : Z)
| GeneratorExit
| Exception (cls : string) (text : string)
| typer_Exit (code : Z).

(** [isinstance(e, Exception)] *)
Definition isinstance_Exception (e : exception) : bool :=
  match e with
  | Exception _ _ | typer_Exit _ => true
  | KeyboardInterrupt | SystemExit _ | GeneratorExit => false
  end.

(** [str(e)]: the message of an [Exception]; for [SystemExit(code)] and
    [typer.Exit(code)] the code, their only argument; empty for the two
    exceptions raised without argument. *)
Definition exception_text (e : exception) : string :=
  match e with
  | Exception _ text => text
  | SystemExit code | typer_Exit code => pretty code
  | KeyboardInterrupt | GeneratorExit => ""
  end.

Definition AttributeError (attr : string) : exception :=
  Exception "AttributeError" ("object has no attribute '" +:+ attr +:+ "'").

Inductive result (A : Type) :=
| Ok (a : A)
| Raise (e : exception).
Arguments Ok {A} a.
Arguments Raise {A} e.

Definition bind {A B} (m : result A) (k : A -> result B) : result B :=
  match m with
  | Ok a => k a
  | Raise e => Raise e
  end.

Declare Scope py_scope.
Delimit Scope py_scope with py.
Notation "x <- m ;; k" := (bind m (fun x => k))
  (at level 100, m at next level, right associativity) : py_scope.
Local Open Scope py_scope.

(* ===================================================================== *)
(** ** Insertion-ordered dictionaries *)
(* ===================================================================== *)

Abbreviation dict V := (list (string * V)).

Module Dict.
Section Ops.
Context {V : Type}.

(** [d[k] = v]: an existing key keeps its position. *)
Fixpoint set (d : dict V) (k : string) (v : V) : dict V :=
  match d with
  | [] => [(k, v)]
  | (k', v') :: d' =>
      if String.eqb k' k then (k', v) :: d' else (k', v') :: set d' k v
  end.

(** [d.get(k)] *)
Fixpoint get (d : dict V) (k : string) : option V :=
  match d with
  | [] => None
  | (k', v') :: d' => if String.eqb k' k then Some v' else get d' k
  end.

(** [k in d] *)
Definition contains (d : dict V) (k : string) : bool :=
  match get d k with Some _ => true | None => false end.

(** [list(d.keys())] *)
Definition keys (d : dict V) : list string := map fst d.

(** A Python dict holds each key once. *)
Definition wf (d : dict V) : Prop := NoDup (keys d).
End Ops.
End Dict.

(** [{k: f(v) for k, v in items}] where [f] may raise: entries are
    evaluated and inserted from left to right. *)
Fixpoint dict_comprehension {V W} (f : V -> result W)
    (items : dict V) (acc : dict W) : result (dict W) :=
  match items with
  | [] => Ok acc
  | (k, v) :: rest =>
      w <- f v ;;
      dict_comprehension f rest (Dict.set acc k w)
  end.

(* ===================================================================== *)
(** ** Python objects as the code observes them *)
(* ===================================================================== *)

(** Any value used as a type reference (an annotation, a field type):
    the code asks [hasattr(v, '__module__')], [hasattr(v, '__name__')]
    and, failing both, [str(v)]. *)
Record PyValue := mkValue {
  v_module : option string;
  v_name : option string;
  v_str : string;
}.

(** A type object as it appears in an [__mro__]: identity, [__module__]
    and [__name__], which every class has. *)
Record PyType := mkType {
  ty_id : nat;
  ty_module : string;
  ty_name : string;
}.

Definition value_of_type (t : PyType) : PyValue :=
  {| v_module := Some (ty_module t);
     v_name := Some (ty_name t);
     v_str := "<class '" +:+ ty_module t +:+ "." +:+ ty_name t +:+ "'>" |}.

(** The universal root type. *)
Definition object_type : PyType :=
  {| ty_id := 0; ty_module := "builtins"; ty_name := "object" |}.

(** A value stored in a class's [__dict__]: a plain function with its
    [__annotations__], a [staticmethod] or [classmethod] wrapper, or
    anything else (a class attribute, a property, ...). *)
Inductive PyMember :=
| FunctionType (annotations : dict PyValue)
| StaticMethod
| ClassMethod
| OtherValue.

Definition isinstance_FunctionType (v : PyMember) : bool :=
  match v with FunctionType _ => true | _ => false end.

(** [getattr(v, '__annotations__', {})] *)
Definition getattr_annotations (v : PyMember) : dict PyValue :=
  match v with FunctionType a => a | _ => [] end.

(** A class object. [cls_mro] is [klass.__mro__]; [cls_dict] is
    [klass.__dict__] in insertion order; [cls_annotations] is
    [getattr(klass, '__annotations__', {})]; [cls_dataclass_fields] is
    [klass.__dataclass_fields__] mapped to each field's [.type], present
    exactly when [dataclasses.is_dataclass(klass)]. *)
Record PyClass := mkClass {
  cls_type : PyType;
  cls_mro : list PyType;
  cls_dict : dict PyMember;
  cls_annotations : dict PyValue;
  cls_dataclass_fields : option (dict PyValue);
}.

Definition cls_module (k : PyClass) : string := ty_module (cls_type k).
Definition cls_name (k : PyClass) : string := ty_name (cls_type k).

(** [v.__name__], which raises when the attribute is missing. *)
Definition getattr_name (v : PyValue) : result string :=
  match v_name v with
  | Some n => Ok n
  | None => Raise (AttributeError "__name__")
  end.

(* ===================================================================== *)
(** ** The data model: [ClassDef] *)
(* ===================================================================== *)

Record ClassDef := mkClassDef {
  name : string;
  module : string;
  bases : list string;
  fields : dict string;
  methods : dict (dict string);
}.

(* ===================================================================== *)
(** ** Structure normalizer *)
(* ===================================================================== *)

Definition _get_fullname (entity : PyValue) : result string :=
  match v_module entity with
  | Some m =>
      n <- getattr_name entity ;;
      Ok (m +:+ "." +:+ n)
  | None =>
      match v_name entity with
      | Some n => Ok n
      | None => Ok (v_str entity)
      end
  end.

Definition _get_method_annotation (method : PyMember) : result (dict string) :=
  dict_comprehension _get_fullname (getattr_annotations method) [].

Fixpoint _get_methods_loop (items : dict PyMember)
    (methods : dict (dict string)) : result (dict (dict string)) :=
  match items with
  | [] => Ok methods
  | (k, v) :: rest =>
      if Str.startswith k "__" || negb (isinstance_FunctionType v)
      then _get_methods_loop rest methods
      else
        a <- _get_method_annotation v ;;
        _get_methods_loop rest (Dict.set methods k a)
  end.

Definition _get_methods (entity : PyClass) : result (dict (dict string)) :=
  _get_methods_loop (cls_dict entity) [].

(** [klass.__dataclass_fields__] *)
Definition getattr_dataclass_fields (klass : PyClass) : result (dict PyValue) :=
  match cls_dataclass_fields klass with
  | Some fs => Ok fs
  | None => Raise (AttributeError "__dataclass_fields__")
  end.

Definition _get_dataclass_structure (klass : PyClass) : result ClassDef :=
  dc <- getattr_dataclass_fields klass ;;
  fields <- dict_comprehension getattr_name dc [] ;;
  methods <- _get_methods klass ;;
  Ok {| name := ""; module := ""; bases := [];
        fields := fields; methods := methods |}.

(** [c.__name__ not in ('object', klass.__name__)] *)
Definition base_class_kept (klass : PyClass) (c : PyType) : bool :=
  negb (String.eqb (ty_name c) "object" || String.eqb (ty_name c) (cls_name klass)).

Definition _get_base_classes (klass : PyClass) : list PyType :=
  List.filter (base_class_kept klass) (cls_mro klass).

Definition _get_annotations (klass : PyClass) : result (dict string) :=
  dict_comprehension _get_fullname (cls_annotations klass) [].

(** [getattr(value, '__value__', str(value))] on a [str]: a string has no
    [__value__], and [str] of a string is the string. *)
Definition getattr_value_or_str (value : string) : string := value.

(** The loop of [_get_classic_class_structure]; the annotations are
    resolved anew for every key that is kept. *)
Fixpoint _get_classic_fields_loop (klass : PyClass) (_methods : dict (dict string))
    (ks : list string) (fields : dict string) : result (dict string) :=
  match ks with
  | [] => Ok fields
  | k :: rest =>
      if Str.startswith k "__" || Dict.contains _methods k
      then _get_classic_fields_loop klass _methods rest fields
      else
        annotations <- _get_annotations klass ;;
        let value := default "" (Dict.get annotations k) in
        _get_classic_fields_loop klass _methods rest
          (Dict.set fields k (getattr_value_or_str value))
  end.

Definition _get_classic_class_structure (klass : PyClass) : result ClassDef :=
  _methods <- _get_methods klass ;;
  fields <- _get_classic_fields_loop klass _methods (Dict.keys (cls_dict klass)) [] ;;
  Ok {| name := ""; module := ""; bases := [];
        fields := fields; methods := _methods |}.

(** [dataclasses.is_dataclass(klass)] *)
Definition is_dataclass (klass : PyClass) : bool :=
  match cls_dataclass_fields klass with Some _ => true | None => false end.

(** [for ref_class in ...: class_struct.bases.append(_get_fullname(ref_class))] *)
Fixpoint _get_bases_loop (refs : list PyType) (acc : list string) : result (list string) :=
  match refs with
  | [] => Ok acc
  | ref_class :: rest =>
      n <- _get_fullname (value_of_type ref_class) ;;
      _get_bases_loop rest (acc ++ [n])
  end.

(** The argument is a class ([inspect.isclass] holds of every [PyClass]),
    so the final [raise] of the source has no input here. *)
Definition _get_class_structure (klass : PyClass) : result ClassDef :=
  class_struct <- (if is_dataclass klass
                   then _get_dataclass_structure klass
                   else _get_classic_class_structure klass) ;;
  let module' := cls_module klass in
  name' <- _get_fullname (value_of_type (cls_type klass)) ;;
  bases' <- _get_bases_loop (_get_base_classes klass) [] ;;
  Ok {| name := name'; module := module'; bases := bases';
        fields := fields class_struct; methods := methods class_struct |}.

(* ===================================================================== *)
(** ** UML formatter *)
(* ===================================================================== *)

(** The line-break marker of record labels: a backslash and an [l]. *)
Definition line_break : string := "\l".

(** ["-" if k.startswith("_") else "+"] *)
Definition visibility (k : string) : string :=
  if Str.startswith k "_" then "-" else "+".

Definition field_line (kv : string * string) : string :=
  visibility (fst kv) +:+ " " +:+ fst kv +:+ ": " +:+ snd kv.

Definition method_line (m_name : string) : string :=
  visibility m_name +:+ " " +:+ m_name +:+ "()".

Definition _get_entity_class_uml (klass : ClassDef) : string :=
  let base_classes := Str.join ", " (bases klass) in
  let class_name :=
    if Str.is_empty base_classes then name klass
    else name klass +:+ " (" +:+ base_classes +:+ ")" in
  let fields := Str.join line_break (map field_line (fields klass)) +:+ line_break in
  let methods_raw := map method_line (Dict.keys (methods klass)) in
  let methods := Str.join line_break methods_raw +:+ line_break in
  "{" +:+ class_name +:+ "|" +:+ fields +:+ "|" +:+ methods +:+ "}".

(* ===================================================================== *)
(** ** Process state and the runtime the loader calls into *)
(* ===================================================================== *)

(** [sys.path] and the lines written to the two output streams. *)
Record World := mkWorld {
  sys_path : list string;
  stdout : list string;
  stderr : list string;
}.

Definition set_sys_path (p : list string) (w : World) : World :=
  {| sys_path := p; stdout := stdout w; stderr := stderr w |}.

(** [print(line)] *)
Definition print (line : string) (w : World) : World :=
  {| sys_path := sys_path w; stdout := stdout w ++ [line]; stderr := stderr w |}.

(** [typer.echo(text, err=True)] *)
Definition echo_err (text : string) (w : World) : World :=
  {| sys_path := sys_path w; stdout := stdout w; stderr := stderr w ++ [text] |}.

(** An attribute of a loaded module, as [getattr(module, o)] returns it. *)
Inductive PyObject :=
| ClassObject (c : PyClass)
| OtherObject.

(** [inspect.isclass] *)
Definition isclass (o : PyObject) : bool :=
  match o with ClassObject _ => true | OtherObject => false end.

(** A loaded module: the names of [dir(module)] with their values. *)
Record PyModule := mkModule {
  mod_dir : list (string * PyObject);
}.

(** What lies outside the program: the file system and the import
    machinery.  Importing runs arbitrary code, so [import_module] may
    change the world and may raise anything. *)
Record Runtime := mkRuntime {
  os_path_exists : string -> bool;
  os_path_isdir : string -> bool;
  glob_recursive : string -> list string;
  import_module : string -> World -> result PyModule * World;
}.

(** [os.sep] on a POSIX system. *)
Definition os_sep : ascii := "/"%char.

Definition ESC : string := String (ascii_of_nat 27) EmptyString.

(** [typer.style(message, fg=typer.colors.RED, bold=True)]: the ANSI
    codes for red and bold, the text, and the reset code. *)
Definition typer_style_red_bold (message : string) : string :=
  ESC +:+ "[31m" +:+ ESC +:+ "[1m" +:+ message +:+ ESC +:+ "[0m".

Definition DQUOTE : string := String (ascii_of_nat 34) EmptyString.

Definition raise_error {A} (message : string) (exit_code : Z) (w : World)
    : result A * World :=
  let red_text := typer_style_red_bold message in
  (Raise (typer_Exit exit_code), echo_err red_text w).

(* ===================================================================== *)
(** ** Source locator *)
(* ===================================================================== *)

(** [for x in exclude_pattern: if x in f: skip = True; break] *)
Definition excluded (exclude_pattern : list string) (f : string) : bool :=
  existsb (fun x => Str.contains x f) exclude_pattern.

Definition _search_modules (rt : Runtime) (target : string)
    (exclude_pattern : list string) : list string :=
  List.filter
    (fun f => negb (excluded exclude_pattern f) && Str.endswith f ".py")
    (glob_recursive rt (target +:+ "/**/*")).

Definition default_exclude_pattern : list string := ["__pycache__"].

Definition _extract_filename (filename : string) : string :=
  List.hd "" (Str.split "."%char (List.last (Str.split os_sep filename) "")).

Definition _extract_module_name (module_path : string) : string * string :=
  let module_split := Str.split os_sep module_path in
  let module_path' := Str.join (String os_sep EmptyString) (List.removelast module_split) in
  let module_filename := List.last module_split "" in
  let module_name := Str.rstrip ".py" module_filename in
  (module_path', module_name).

(* ===================================================================== *)
(** ** Entity loader *)
(* ===================================================================== *)

(** [[getattr(module, o) for o in dir(module)
      if inspect.isclass(getattr(module, o)) and not o.startswith('__')]] *)
Fixpoint classes_of_module (attrs : list (string * PyObject)) : list PyClass :=
  match attrs with
  | [] => []
  | (o, ClassObject c) :: rest =>
      if negb (Str.startswith o "__") then c :: classes_of_module rest
      else classes_of_module rest
  | (_, OtherObject) :: rest => classes_of_module rest
  end.

Definition error_banner (module_name : string) : string :=
  Str.center (" Error loading module " +:+ module_name +:+ " ") 80 "="%char.

Definition _get_classes_from_module (rt : Runtime) (module_path : string)
    (w : World) : result (list PyClass) * World :=
  let '(module_path', module_name) := _extract_module_name module_path in
  let original_path := sys_path w in
  (* try: *)
  let w1 := set_sys_path (module_path' :: sys_path w) w in
  match import_module rt module_name w1 with
  | (Ok module, w2) =>
      let w3 := set_sys_path original_path w2 in
      (Ok (classes_of_module (mod_dir module)), w3)
  | (Raise KeyboardInterrupt, w2) =>
      (* except KeyboardInterrupt: *)
      raise_error "KeyboardInterrupt" 1 w2
  | (Raise e, w2) =>
      if isinstance_Exception e then
        (* except Exception as e: *)
        let w3 := print (error_banner module_name) w2 in
        let w4 := print (exception_text e) w3 in
        let w5 := print (Str.repeat "."%char 80) w4 in
        (Ok [], w5)
      else (Raise e, w2)
  end.

(* ===================================================================== *)
(** ** Diagram builder *)
(* ===================================================================== *)

(** What [create_diagram] puts into the [graphviz.Digraph]: the node
    statements in the order of the calls of [g.node], and the edges given
    to [g.edges], a set. *)
Record Digraph := mkDigraph {
  g_comment : string;
  g_node_attr : list (string * string);
  g_nodes : list (string * string);
  g_edges : gset (string * string);
}.

(** [for b in klass.bases: edges.append((b, klass.name))] *)
Definition edges_of (klass : ClassDef) : list (string * string) :=
  map (fun b => (b, name klass)) (bases klass).

Fixpoint create_diagram_loop (classes_list : list ClassDef) (verbose : bool)
    (nodes edges : list (string * string)) (out : list string)
    : list (string * string) * list (string * string) * list string :=
  match classes_list with
  | [] => (nodes, edges, out)
  | klass :: rest =>
      let nodes' := nodes ++ [(name klass, _get_entity_class_uml klass)] in
      let edges' := edges ++ edges_of klass in
      let out' := if verbose
                  then out ++ ["[II] " +:+ name klass +:+ " - included."]
                  else out in
      create_diagram_loop rest verbose nodes' edges' out'
  end.

(** The graph, and the lines printed in verbose mode. *)
Definition create_diagram (classes_list : list ClassDef) (verbose : bool)
    : Digraph * list string :=
  let '(nodes, edges, out) := create_diagram_loop classes_list verbose [] [] [] in
  ({| g_comment := "Graph";
      g_node_attr := [("shape", "record"); ("rankdir", "BT")];
      g_nodes := nodes;
      g_edges := list_to_set edges |}, out).

(* ===================================================================== *)
(** ** Pipeline orchestrator *)
(* ===================================================================== *)

(** [for f in files: classes_list.extend(_get_classes_from_module(f))] *)
Fixpoint load_files (rt : Runtime) (files : list string)
    (classes_list : list PyClass) (w : World) : result (list PyClass) * World :=
  match files with
  | [] => (Ok classes_list, w)
  | f :: rest =>
      match _get_classes_from_module rt f w with
      | (Ok cs, w') => load_files rt rest (classes_list ++ cs) w'
      | (Raise e, w') => (Raise e, w')
      end
  end.

(** [for c in classes_list: result.append(_get_class_structure(c))] *)
Fixpoint normalize_all (classes_list : list PyClass) (acc : list ClassDef)
    : result (list ClassDef) :=
  match classes_list with
  | [] => Ok acc
  | c :: rest =>
      s <- _get_class_structure c ;;
      normalize_all rest (acc ++ [s])
  end.

(** The files the orchestrator hands to the loader, and the world in
    which the first of them is loaded. *)
Definition source_files (rt : Runtime) (path_str : string) : list string :=
  if os_path_isdir rt path_str
  then _search_modules rt path_str default_exclude_pattern
  else [path_str].

Definition enter_source (rt : Runtime) (path_str : string) (w : World) : World :=
  if os_path_isdir rt path_str
  then set_sys_path (path_str :: sys_path w) w
  else w.

Definition load_classes_definition (rt : Runtime) (source : string)
    (verbose : bool) (w : World) : result (list ClassDef) * World :=
  let path_str := source in
  if negb (os_path_exists rt path_str) then
    raise_error ("Path " +:+ DQUOTE +:+ path_str +:+ DQUOTE +:+ " doesn't  exist.") 1 w
  else
    match load_files rt (source_files rt path_str) [] (enter_source rt path_str w) with
    | (Ok classes_list, w') => (normalize_all classes_list [], w')
    | (Raise e, w') => (Raise e, w')
    end.

(* ===================================================================== *)
(** ** Reference definitions for the statements *)
(* ===================================================================== *)

(** The name-resolution rule in the specification's words: module and
    bare name give [module.name]; a bare name alone gives the name;
    otherwise the generic string rendering. *)
Definition three_tier_rule (v : PyValue) : string :=
  match v_module v, v_name v with
  | Some m, Some n => m +:+ "." +:+ n
  | _, Some n => n
  | _, None => v_str v
  end.

(** The ancestors in the specification's words: the resolution order
    without the universal root type and without the entity itself, both
    told by identity. *)
Definition proper_ancestors (klass : PyClass) : list PyType :=
  List.filter
    (fun c => negb (Nat.eqb (ty_id c) (ty_id object_type))
              && negb (Nat.eqb (ty_id c) (ty_id (cls_type klass))))
    (cls_mro klass).

Definition fullname_of_type (t : PyType) : string :=
  ty_module t +:+ "." +:+ ty_name t.

(** An import that the loader survives: it succeeds, or it raises an
    exception derived from [Exception]. *)
Definition import_recoverable (r : result PyModule) : bool :=
  match r with
  | Ok _ => true
  | Raise e => isinstance_Exception e
  end.

(** The world in which the loader runs the import of [f]. *)
Definition world_at_import (f : string) (w : World) : World :=
  set_sys_path (fst (_extract_module_name f) :: sys_path w) w.

Definition import_of (rt : Runtime) (f : string) (w : World) : result PyModule * World :=
  import_module rt (snd (_extract_module_name f)) (world_at_import f w).

(** A [KeyboardInterrupt] is raised by the import of one of [files], and
    every file before it was loaded or skipped. *)
Inductive interrupt_reached (rt : Runtime) : list string -> World -> Prop :=
| interrupt_here f rest w :
    fst (import_of rt f w) = Raise KeyboardInterrupt ->
    interrupt_reached rt (f :: rest) w
| interrupt_later f rest w :
    import_recoverable (fst (import_of rt f w)) = true ->
    interrupt_reached rt rest (snd (_get_classes_from_module rt f w)) ->
    interrupt_reached rt (f :: rest) w.

(** The run ended through [raise_error]: [typer.Exit] with a non-zero
    code, and the styled message is the last line on the error stream. *)
Definition aborted_with_styled_message {A} (r : result A * World) : Prop :=
  exists code message,
    fst r = Raise (typer_Exit code) /\ code <> 0%Z /\
    last (stderr (snd r)) = Some (typer_style_red_bold message).

(** The entries of a class dictionary that [_get_methods] keeps. *)
Definition plain_method (kv : string * PyMember) : bool :=
  negb (Str.startswith (fst kv) "__") && isinstance_FunctionType (snd kv).

Definition is_wrapper (v : PyMember) : Prop :=
  v = StaticMethod \/ v = ClassMethod.

(** In the resolution order of [klass], the bare names ["object"] and
    [klass.__name__] belong to the root type and to [klass] only. *)
Definition mro_told_by_name (klass : PyClass) : Prop :=
  forall c, In c (cls_mro klass) ->
    (ty_name c = "object" <-> ty_id c = ty_id object_type) /\
    (ty_name c = cls_name klass <-> ty_id c = ty_id (cls_type klass)).

(** A value for which [_get_fullname] returns: a value that shows a
    [__module__] shows a [__name__] too. *)
Definition nameable (v : PyValue) : Prop :=
  v_module v = None \/ v_name v <> None.

(** The only exception a result can hold is an [AttributeError]. *)
Definition raises_only_AttributeError {A} (r : result A) : Prop :=
  forall e, r = Raise e -> exists attr, e = AttributeError attr.

(** The statement that every error of an import other than an interrupt
    is caught by the loader, which then returns no entity. *)
Definition every_other_error_is_caught : Prop :=
  forall rt path w e,
    fst (import_of rt path w) = Raise e ->
    e <> KeyboardInterrupt ->
    fst (_get_classes_from_module rt path w) = Ok [].

(** [s] occurs in [t]. *)
Definition occurs_in (s t : string) : Prop :=
  exists pre post, t = pre +:+ s +:+ post.

(* ===================================================================== *)
(** ** Sample programs *)
(* ===================================================================== *)

Module Samples.

Definition int_type : PyType :=
  {| ty_id := 1; ty_module := "builtins"; ty_name := "int" |}.

(** [None], as the annotation of a return value: neither [__module__]
    nor [__name__]. *)
Definition none_value : PyValue :=
  {| v_module := None; v_name := None; v_str := "None" |}.

(** An instance of a user-defined class used as an annotation: the
    class attribute [__module__] is visible, [__name__] is not. *)
Definition instance_value : PyValue :=
  {| v_module := Some "shapes"; v_name := None;
     v_str := "<shapes.Unit object>" |}.

(** [class Point: x: int = 0] in module [shapes]. *)
Definition classic_point : PyClass :=
  {| cls_type := {| ty_id := 10; ty_module := "shapes"; ty_name := "Point" |};
     cls_mro := [ {| ty_id := 10; ty_module := "shapes"; ty_name := "Point" |};
                  object_type ];
     cls_dict := [ ("__module__", OtherValue); ("__annotations__", OtherValue);
                   ("x", OtherValue); ("__dict__", OtherValue);
                   ("__weakref__", OtherValue); ("__doc__", OtherValue) ];
     cls_annotations := [ ("x", value_of_type int_type) ];
     cls_dataclass_fields := None |}.

(** [@dataclass class Point: x: int = 0] in module [shapes]. *)
Definition data_point : PyClass :=
  {| cls_type := {| ty_id := 11; ty_module := "shapes"; ty_name := "Point" |};
     cls_mro := [ {| ty_id := 11; ty_module := "shapes"; ty_name := "Point" |};
                  object_type ];
     cls_dict := [ ("__module__", OtherValue); ("__annotations__", OtherValue);
                   ("x", OtherValue); ("__dict__", OtherValue);
                   ("__weakref__", OtherValue); ("__doc__", OtherValue);
                   ("__dataclass_params__", OtherValue);
                   ("__dataclass_fields__", OtherValue);
                   ("__init__", FunctionType [ ("x", value_of_type int_type);
                                               ("return", none_value) ]);
                   ("__repr__", FunctionType []);
                   ("__eq__", FunctionType []);
                   ("__hash__", OtherValue);
                   ("__match_args__", OtherValue) ];
     cls_annotations := [ ("x", value_of_type int_type) ];
     cls_dataclass_fields := Some [ ("x", value_of_type int_type) ] |}.

(** [class Model(orm.Model): ...] in module [app]: the base has the
    entity's bare name. *)
Definition orm_model : PyType :=
  {| ty_id := 20; ty_module := "orm"; ty_name := "Model" |}.

Definition app_model : PyClass :=
  {| cls_type := {| ty_id := 21; ty_module := "app"; ty_name := "Model" |};
     cls_mro := [ {| ty_id := 21; ty_module := "app"; ty_name := "Model" |};
                  orm_model; object_type ];
     cls_dict := [ ("__module__", OtherValue); ("__doc__", OtherValue) ];
     cls_annotations := [];
     cls_dataclass_fields := None |}.

(** A class with one private field, one public method, one static
    method and one class method. *)
Definition account : PyClass :=
  {| cls_type := {| ty_id := 30; ty_module := "bank"; ty_name := "Account" |};
     cls_mro := [ {| ty_id := 30; ty_module := "bank"; ty_name := "Account" |};
                  object_type ];
     cls_dict := [ ("__module__", OtherValue);
                   ("_private", OtherValue);
                   ("public_method", FunctionType [ ("return", none_value) ]);
                   ("build", StaticMethod);
                   ("create", ClassMethod);
                   ("__doc__", OtherValue) ];
     cls_annotations := [ ("_private", value_of_type int_type) ];
     cls_dataclass_fields := None |}.

(** A source tree [proj] with four files: one that loads, one that
    raises [SyntaxError], one that calls [sys.exit(3)] when loaded and
    one whose loading is interrupted. *)
Definition runtime : Runtime :=
  {| os_path_exists := fun p => negb (String.eqb p "missing");
     os_path_isdir := fun p => String.eqb p "proj";
     glob_recursive := fun pat =>
       if String.eqb pat "proj/**/*"
       then [ "proj/good.py"; "proj/broken.py"; "proj/__pycache__/good.py";
              "proj/notes.txt" ]
       else [];
     import_module := fun module_name w =>
       if String.eqb module_name "good" then
         (Ok {| mod_dir := [ ("Account", ClassObject account);
                             ("__builtins__", OtherObject) ] |}, w)
       else if String.eqb module_name "broken" then
         (Raise (Exception "SyntaxError" "invalid syntax"), w)
       else if String.eqb module_name "exits" then
         (Raise (SystemExit 3), w)
       else if String.eqb module_name "stopped" then
         (Raise KeyboardInterrupt, w)
       else (Raise (Exception "ModuleNotFoundError" "No module named"), w) |}.

(** A classic-style class that defines [__class_getitem__] through the
    [classmethod] wrapper. *)
Definition generic_box : PyClass :=
  {| cls_type := {| ty_id := 40; ty_module := "boxes"; ty_name := "Box" |};
     cls_mro := [ {| ty_id := 40; ty_module := "boxes"; ty_name := "Box" |};
                  object_type ];
     cls_dict := [ ("__module__", OtherValue);
                   ("__class_getitem__", ClassMethod);
                   ("__doc__", OtherValue) ];
     cls_annotations := [];
     cls_dataclass_fields := None |}.

(** [class Base: x: int = 0] and [class Derived(Base): def run(self)]. *)
Definition base_type : PyType :=
  {| ty_id := 50; ty_module := "shapes"; ty_name := "Base" |}.

Definition derived : PyClass :=
  {| cls_type := {| ty_id := 51; ty_module := "shapes"; ty_name := "Derived" |};
     cls_mro := [ {| ty_id := 51; ty_module := "shapes"; ty_name := "Derived" |};
                  base_type; object_type ];
     cls_dict := [ ("__module__", OtherValue); ("run", FunctionType []);
                   ("__doc__", OtherValue) ];
     cls_annotations := [];
     cls_dataclass_fields := None |}.

Definition derived_structure : ClassDef :=
  {| name := "shapes.Derived"; module := "shapes"; bases := [ "shapes.Base" ];
     fields := []; methods := [ ("run", []) ] |}.

(** What [_get_class_structure] returns for [account]. *)
Definition account_structure : ClassDef :=
  {| name := "bank.Account"; module := "bank"; bases := [];
     fields := [ ("_private", "builtins.int"); ("build", ""); ("create", "") ];
     methods := [ ("public_method", [ ("return", "None") ]) ] |}.

Definition world0 : World :=
  {| sys_path := [ "/usr/lib/python3" ]; stdout := []; stderr := [] |}.

End Samples.

(* ===================================================================== *)
(** ** Further reference definitions *)
(* ===================================================================== *)

(** The last component of a path: [module_path.split(os.sep)[-1]]. *)
Definition basename (path : string) : string :=
  List.last (Str.split os_sep path) "".

(** A bare name without a dot, as every Python identifier is. *)
Definition no_dot (s : string) : Prop := Str.mem "."%char s = false.

(** The keys of a class dictionary that the classic-style loop keeps. *)
Definition keeps_classic_field (_methods : dict (dict string)) (k : string) : bool :=
  negb (Str.startswith k "__") && negb (Dict.contains _methods k).

(** A mapping of annotations rendered entry by entry with the rule. *)
Definition render_annotations (items : dict PyValue) : dict string :=
  map (fun kv => (fst kv, three_tier_rule (snd kv))) items.



(** The progress line of verbose mode. *)
Definition verbose_line (klass : ClassDef) : string :=
  "[II] " +:+ name klass +:+ " - included.".

Module MoreSamples.

(** [class Measure: unit: Unit() = 1] in module [shapes]: the annotation
    of [unit] is an instance, which shows a [__module__] and no
    [__name__]. *)
Definition measure : PyClass :=
  {| cls_type := {| ty_id := 60; ty_module := "shapes"; ty_name := "Measure" |};
     cls_mro := [ {| ty_id := 60; ty_module := "shapes"; ty_name := "Measure" |};
                  object_type ];
     cls_dict := [ ("__module__", OtherValue); ("__annotations__", OtherValue);
                   ("unit", OtherValue); ("__doc__", OtherValue) ];
     cls_annotations := [ ("unit", Samples.instance_value) ];
     cls_dataclass_fields := None |}.


Definition measure_module : PyModule :=
  {| mod_dir := [ ("Measure", ClassObject measure) ] |}.

(** A runtime whose every import returns the module [measure_module]. *)
Definition runtime_measure : Runtime :=
  {| os_path_exists := fun _ => true;
     os_path_isdir := fun _ => false;
     glob_recursive := fun _ => [];
     import_module := fun _ w => (Ok measure_module, w) |}.


End MoreSamples.

(* ===================================================================== *)
(** * Properties *)
(* ===================================================================== *)

(** ** Strings *)

Section StringFacts.

Lemma str_app_cons (c : ascii) (s t : string) :
  String c s +:+ t = String c (s +:+ t).
Proof. reflexivity. Qed.

Lemma str_app_nil_l (s : string) : "" +:+ s = s.
Proof. reflexivity. Qed.

Lemma str_app_nil_r (s : string) : s +:+ "" = s.
Proof.
  induction s as [|c s IH]; [done |]. by rewrite str_app_cons, IH.
Qed.

Lemma str_app_assoc (s t u : string) : (s +:+ t) +:+ u = s +:+ (t +:+ u).
Proof.
  induction s as [|c s IH]; [done |]. by rewrite !str_app_cons, IH.
Qed.

Lemma str_length_app (s t : string) :
  String.length (s +:+ t) = (String.length s + String.length t)%nat.
Proof.
  induction s as [|c s IH]; [done |]. rewrite str_app_cons. simpl. by rewrite IH.
Qed.

Lemma prefix_app (s t : string) : String.prefix s (s +:+ t) = true.
Proof.
  induction s as [|c s IH]; [by destruct t |].
  rewrite str_app_cons. simpl.
  destruct (ascii_dec c c); [done | congruence].
Qed.

Lemma prefix_inv (p s : string) :
  String.prefix p s = true -> exists rest, s = p +:+ rest.
Proof.
  revert s. induction p as [|c p IH]; intros s H; simpl in *.
  - by exists s.
  - destruct s as [|d s]; [done |]. simpl in H.
    destruct (ascii_dec c d) as [->|]; [| done].
    destruct (IH _ H) as [rest ->]. exists rest. by rewrite str_app_cons.
Qed.

Lemma startswith_iff (s p : string) :
  Str.startswith s p = true <-> exists rest, s = p +:+ rest.
Proof.
  unfold Str.startswith. split.
  - apply prefix_inv.
  - intros [rest ->]. apply prefix_app.
Qed.

Lemma substring_all (s : string) : String.substring 0 (String.length s) s = s.
Proof. induction s as [|c s IH]; [done |]. cbn. f_equal. exact IH. Qed.

Lemma substring_skip (s t : string) (m : nat) :
  String.substring (String.length s) m (s +:+ t) = String.substring 0 m t.
Proof.
  induction s as [|c s IH]; [done |]. rewrite str_app_cons. simpl. apply IH.
Qed.

Lemma endswith_app (s t : string) : Str.endswith (s +:+ t) t = true.
Proof.
  unfold Str.endswith. rewrite str_length_app.
  apply andb_true_iff. split.
  - apply Nat.leb_le. lia.
  - replace (String.length s + String.length t - String.length t)%nat
      with (String.length s) by lia.
    rewrite substring_skip, substring_all. apply String.eqb_refl.
Qed.

Lemma join_cons (sep x : string) (l : list string) :
  l <> [] -> Str.join sep (x :: l) = x +:+ sep +:+ Str.join sep l.
Proof. destruct l; [done | reflexivity]. Qed.

(** Each part of a joined string occurs in it. *)
Lemma join_occurs (sep x : string) (l : list string) :
  In x l -> occurs_in x (Str.join sep l).
Proof.
  induction l as [|y l IH]; [done |].
  intros [->|Hin].
  - destruct l as [|z l].
    + exists "", "". change (x = x +:+ ""). by rewrite str_app_nil_r.
    + exists "", (sep +:+ Str.join sep (z :: l)). reflexivity.
  - destruct l as [|z l]; [done |].
    destruct (IH Hin) as (pre & post & Heq).
    exists (y +:+ sep +:+ pre), post.
    rewrite join_cons by done. rewrite Heq.
    by rewrite !str_app_assoc.
Qed.

Lemma occurs_in_context (x s pre post : string) :
  occurs_in x s -> occurs_in x (pre +:+ s +:+ post).
Proof.
  intros (a & b & ->). exists (pre +:+ a), (b +:+ post).
  by rewrite !str_app_assoc.
Qed.

(** A non-empty list of lines, joined and terminated, is every line
    followed by the marker. *)
Lemma join_terminated (sep : string) (lines : list string) :
  lines <> [] ->
  Str.join sep lines +:+ sep = String.concat "" (map (fun l => l +:+ sep) lines).
Proof.
  induction lines as [|x l IH]; [done |]. intros _.
  destruct l as [|y l]; [reflexivity |].
  rewrite join_cons by done.
  change (map (fun l0 => l0 +:+ sep) (x :: y :: l))
    with ((x +:+ sep) :: map (fun l0 => l0 +:+ sep) (y :: l)).
  change (String.concat "" ((x +:+ sep) :: map (fun l0 => l0 +:+ sep) (y :: l)))
    with ((x +:+ sep) +:+ "" +:+
          String.concat "" (map (fun l0 => l0 +:+ sep) (y :: l))).
  rewrite <- IH by done. simpl. by rewrite !str_app_assoc.
Qed.

End StringFacts.

(** ** UML formatter *)

Section Formatter.

(** The name segment of a label: the name, followed by the
    parenthesized bases when their joined text is not empty. *)
Lemma uml_header_cases (klass : ClassDef) :
  exists header rest,
    _get_entity_class_uml klass = "{" +:+ header +:+ "|" +:+ rest /\
    (Str.join ", " (bases klass) = "" -> header = name klass) /\
    (Str.join ", " (bases klass) <> "" ->
       header = name klass +:+ " (" +:+ Str.join ", " (bases klass) +:+ ")").
Proof.
  unfold _get_entity_class_uml.
  destruct (Str.join ", " (bases klass)) as [|c s] eqn:E; simpl Str.is_empty;
    cbv iota; eexists _, _; (split; [reflexivity |]); split; done.
Qed.

Lemma visibility_minus (k : string) :
  visibility k = "-" <-> exists rest, k = String "_" rest.
Proof.
  unfold visibility. destruct (Str.startswith k "_") eqn:E.
  - split; [intros _ | done]. by apply startswith_iff in E.
  - split; [done |]. intros [rest ->].
    unfold Str.startswith in E. simpl in E. by destruct rest.
Qed.

Lemma visibility_plus (k : string) :
  visibility k = "+" <-> ~ exists rest, k = String "_" rest.
Proof.
  rewrite <- visibility_minus. unfold visibility.
  destruct (Str.startswith k "_"); split; done.
Qed.

End Formatter.

(** C7. The visibility glyph of a rendered field or method line is "-"
    exactly when the name begins with an underscore, and "+" otherwise;
    every field and every method of an entity occurs in its label as such
    a line; a field [_private] renders as [- _private: <type>] and a
    method [public_method] as [+ public_method()]. *)
Theorem visibility_glyph :
  (forall k, (visibility k = "-" <-> exists rest, k = String "_" rest) /\
             (visibility k = "+" <-> ~ exists rest, k = String "_" rest)) /\
  (forall klass k v, In (k, v) (fields klass) ->
     occurs_in (visibility k +:+ " " +:+ k +:+ ": " +:+ v) (_get_entity_class_uml klass)) /\
  (forall klass m, In m (Dict.keys (methods klass)) ->
     occurs_in (visibility m +:+ " " +:+ m +:+ "()") (_get_entity_class_uml klass)) /\
  (forall ty, field_line ("_private", ty) = "- _private: " +:+ ty) /\
  method_line "public_method" = "+ public_method()".
Proof.
  split; [| split; [| split; [| split]]].
  - intros k. split; [apply visibility_minus | apply visibility_plus].
  - intros klass k v Hin.
    assert (Hl : In (field_line (k, v)) (map field_line (fields klass)))
      by (apply in_map_iff; eauto).
    apply (join_occurs line_break) in Hl. unfold _get_entity_class_uml.
    set (hd := if Str.is_empty _ then _ else _).
    set (ms := Str.join line_break (map method_line _) +:+ line_break).
    destruct Hl as (pre & post & ->).
    exists ("{" +:+ hd +:+ "|" +:+ pre), (post +:+ line_break +:+ "|" +:+ ms +:+ "}").
    unfold field_line. simpl fst. simpl snd. by rewrite !str_app_assoc.
  - intros klass m Hin.
    assert (Hl : In (method_line m) (map method_line (Dict.keys (methods klass))))
      by (apply in_map_iff; eauto).
    apply (join_occurs line_break) in Hl. unfold _get_entity_class_uml.
    set (hd := if Str.is_empty _ then _ else _).
    set (fs := Str.join line_break (map field_line _) +:+ line_break).
    destruct Hl as (pre & post & ->).
    exists ("{" +:+ hd +:+ "|" +:+ fs +:+ "|" +:+ pre), (post +:+ line_break +:+ "}").
    unfold method_line. by rewrite !str_app_assoc.
  - reflexivity.
  - reflexivity.
Qed.

(** C8. A label is [{header|fields|methods}]; the lines of the field and
    method blocks are joined with the line-break marker; each block ends
    with the marker, and is the marker alone when it has no line; with
    no base the header is the bare entity name, without parentheses. *)
Theorem uml_label_shape (klass : ClassDef) :
  exists header fblock mblock,
    _get_entity_class_uml klass
      = "{" +:+ header +:+ "|" +:+ fblock +:+ "|" +:+ mblock +:+ "}" /\
    fblock = Str.join line_break (map field_line (fields klass)) +:+ line_break /\
    mblock = Str.join line_break (map method_line (Dict.keys (methods klass)))
               +:+ line_break /\
    Str.endswith fblock line_break = true /\
    Str.endswith mblock line_break = true /\
    (fields klass <> [] ->
       fblock = String.concat "" (map (fun l => l +:+ line_break)
                                      (map field_line (fields klass)))) /\
    (methods klass <> [] ->
       mblock = String.concat "" (map (fun l => l +:+ line_break)
                                      (map method_line (Dict.keys (methods klass))))) /\
    (fields klass = [] -> fblock = line_break) /\
    (methods klass = [] -> mblock = line_break) /\
    (bases klass = [] -> header = name klass) /\
    (Str.join ", " (bases klass) <> "" ->
       header = name klass +:+ " (" +:+ Str.join ", " (bases klass) +:+ ")").
Proof.
  exists (if Str.is_empty (Str.join ", " (bases klass)) then name klass
          else name klass +:+ " (" +:+ Str.join ", " (bases klass) +:+ ")"),
         (Str.join line_break (map field_line (fields klass)) +:+ line_break),
         (Str.join line_break (map method_line (Dict.keys (methods klass)))
            +:+ line_break).
  repeat split.
  - apply endswith_app.
  - apply endswith_app.
  - intros H. apply join_terminated. by destruct (fields klass).
  - intros H. apply join_terminated. by destruct (methods klass).
  - by intros ->.
  - by intros ->.
  - by intros ->.
  - intros H. destruct (Str.join ", " (bases klass)); done.
Qed.

(** ** Module names *)

Section Rstrip.
Variable chars : string.

Lemma rstrip_cons (c : ascii) (s : string) :
  Str.rstrip chars (String c s) =
    if Str.is_empty (Str.rstrip chars s) && Str.mem c chars
    then EmptyString else String c (Str.rstrip chars s).
Proof. reflexivity. Qed.

(** What is removed is a run of characters of the set. *)
Lemma rstrip_decompose (s : string) :
  exists t, s = Str.rstrip chars s +:+ t /\ Str.all_in chars t = true.
Proof.
  induction s as [|c s (t & Hs & Ht)]; [by exists "" |].
  rewrite rstrip_cons.
  destruct (Str.rstrip chars s) as [|d r] eqn:E; simpl Str.is_empty; simpl andb; cbv iota.
  - destruct (Str.mem c chars) eqn:Hc; simpl andb; cbv iota.
    + exists (String c s). split; [done |].
      rewrite str_app_nil_l in Hs. subst t. simpl. by rewrite Hc, Ht.
    + exists t. split; [| done]. rewrite str_app_cons. by rewrite <- Hs.
  - exists t. split; [| done]. rewrite str_app_cons. by rewrite <- Hs.
Qed.

(** What is left does not end in a character of the set. *)
Lemma rstrip_last (s : string) (c : ascii) :
  Str.last_char (Str.rstrip chars s) = Some c -> Str.mem c chars = false.
Proof.
  induction s as [|d s IH]; [done |].
  rewrite rstrip_cons.
  destruct (Str.rstrip chars s) as [|e r] eqn:E; simpl Str.is_empty; simpl andb; cbv iota.
  - destruct (Str.mem d chars) eqn:Hd; simpl andb; cbv iota; [done |].
    simpl. intros [= <-]. exact Hd.
  - intros H. apply IH. exact H.
Qed.

Lemma rstrip_all_in (t : string) :
  Str.all_in chars t = true -> Str.rstrip chars t = "".
Proof.
  induction t as [|c t IH]; [done |]. simpl Str.all_in.
  intros [Hc Ht]%andb_true_iff. by rewrite rstrip_cons, (IH Ht), Hc.
Qed.

(** A run of characters of the set appended to [s] is removed with the
    trailing run of [s] itself. *)
Lemma rstrip_app_all (s t : string) :
  Str.all_in chars t = true ->
  Str.rstrip chars (s +:+ t) = Str.rstrip chars s.
Proof.
  intros Ht. induction s as [|c s IH].
  - rewrite str_app_nil_l. by apply rstrip_all_in.
  - by rewrite str_app_cons, !rstrip_cons, IH.
Qed.

Lemma rstrip_differs (base stem : string) (c : ascii) :
  Str.last_char stem = Some c -> Str.mem c chars = true ->
  Str.rstrip chars base <> stem.
Proof.
  intros Hl Hc <-. apply rstrip_last in Hl. congruence.
Qed.

End Rstrip.

(** C9. The module name is the base name of the path with every trailing
    '.', 'p' and 'y' removed: the removed part consists of these
    characters only and the name does not end in one of them.  For a base
    name [stem.py] this is the stem with its own trailing '.', 'p', 'y'
    removed as well, so it differs from the stem whenever the stem ends in
    one of these characters; [happy.py] gives [ha]. *)
Theorem module_name_rstrip (path : string) :
  let base := List.last (Str.split os_sep path) "" in
  let module_name := snd (_extract_module_name path) in
  module_name = Str.rstrip ".py" base /\
  (exists t, base = module_name +:+ t /\ Str.all_in ".py" t = true) /\
  (forall c, Str.last_char module_name = Some c -> Str.mem c ".py" = false) /\
  (forall stem c,
     base = stem +:+ ".py" ->
     Str.last_char stem = Some c -> Str.mem c ".py" = true ->
     module_name = Str.rstrip ".py" stem /\ module_name <> stem).
Proof.
  intros base module_name.
  assert (Hm : module_name = Str.rstrip ".py" base) by reflexivity.
  split; [exact Hm |]. rewrite Hm. split; [| split].
  - apply rstrip_decompose.
  - intros c. apply rstrip_last.
  - intros stem c Hb Hl Hc. split.
    + rewrite Hb. by apply rstrip_app_all.
    + by apply rstrip_differs with c.
Qed.

Lemma module_name_rstrip_happy :
  snd (_extract_module_name "pkg/happy.py") = Str.rstrip ".py" "happy" /\
  snd (_extract_module_name "pkg/happy.py") <> "happy".
Proof.
  apply (proj2 (proj2 (proj2 (module_name_rstrip "pkg/happy.py"))) "happy" "y"%char);
    reflexivity.
Defined.

Example extract_module_name_happy :
  _extract_module_name "pkg/sub/happy.py" = ("pkg/sub", "ha").
Proof. reflexivity. Qed.

Example extract_module_name_plain :
  _extract_module_name "pkg/models.py" = ("pkg", "models").
Proof. reflexivity. Qed.

(** ** Dictionaries *)

Section DictFacts.
Context {V : Type}.
Implicit Types (d : dict V) (k : string) (v : V).

Lemma keys_set_fresh d k v :
  ~ In k (Dict.keys d) -> Dict.keys (Dict.set d k v) = Dict.keys d ++ [k].
Proof.
  induction d as [|[k' v'] d IH]; [done |]. simpl. intros Hk.
  destruct (String.eqb_spec k' k) as [->|Hne]; [tauto |].
  simpl. f_equal. apply IH. tauto.
Qed.

Lemma keys_set_elem d k v k' :
  In k' (Dict.keys (Dict.set d k v)) <-> In k' (Dict.keys d) \/ k' = k.
Proof.
  induction d as [|[k0 v0] d IH]; simpl.
  - intuition congruence.
  - destruct (String.eqb_spec k0 k) as [->|Hne]; simpl.
    + intuition congruence.
    + rewrite IH. tauto.
Qed.

Lemma get_Some_In d k v : Dict.get d k = Some v -> In (k, v) d.
Proof.
  induction d as [|[k0 v0] d IH]; [done |]. simpl.
  destruct (String.eqb_spec k0 k) as [->|Hne].
  - intros [= ->]. by left.
  - intros H. right. by apply IH.
Qed.

Lemma contains_keys d k : Dict.contains d k = true <-> In k (Dict.keys d).
Proof.
  unfold Dict.contains. induction d as [|[k0 v0] d IH]; simpl; [done |].
  destruct (String.eqb_spec k0 k) as [->|Hne]; [by split; auto |].
  rewrite IH. split; [auto | by intros [?|?]].
Qed.

(** A well-formed dictionary binds a key to one value. *)
Lemma wf_functional d k v v' :
  Dict.wf d -> In (k, v) d -> In (k, v') d -> v = v'.
Proof.
  unfold Dict.wf, Dict.keys. induction d as [|[k0 v0] d IH]; [done |].
  simpl. intros Hnd. apply NoDup_cons in Hnd as [Hk0 Hnd].
  assert (Hfresh : forall w, ~ In (k0, w) d).
  { intros w Hw. apply Hk0. rewrite list_elem_of_In. apply in_map_iff.
    by exists (k0, w). }
  intros [H1|H1] [H2|H2].
  - congruence.
  - injection H1 as -> ->. by destruct (Hfresh v').
  - injection H2 as -> ->. by destruct (Hfresh v).
  - by apply IH.
Qed.

End DictFacts.

(** ** Methods and fields *)

Section Methods.

Lemma get_methods_loop_cons k v rest acc :
  _get_methods_loop ((k, v) :: rest) acc =
    if Str.startswith k "__" || negb (isinstance_FunctionType v)
    then _get_methods_loop rest acc
    else a <- _get_method_annotation v ;;
         _get_methods_loop rest (Dict.set acc k a).
Proof. reflexivity. Qed.

Lemma filter_plain_method_cons k v rest :
  List.filter plain_method ((k, v) :: rest) =
    if negb (Str.startswith k "__") && isinstance_FunctionType v
    then (k, v) :: List.filter plain_method rest
    else List.filter plain_method rest.
Proof. reflexivity. Qed.

Lemma get_methods_loop_keys (items : dict PyMember) :
  forall acc ms,
    NoDup (Dict.keys acc ++ Dict.keys items) ->
    _get_methods_loop items acc = Ok ms ->
    Dict.keys ms = Dict.keys acc ++ Dict.keys (List.filter plain_method items).
Proof.
  induction items as [|[k v] rest IH]; intros acc ms Hnd Hloop.
  - simpl in *. injection Hloop as <-. by rewrite app_nil_r.
  - rewrite get_methods_loop_cons in Hloop. rewrite filter_plain_method_cons.
    change (Dict.keys ((k, v) :: rest)) with (k :: Dict.keys rest) in Hnd.
    apply NoDup_app in Hnd as (Hacc & Hdisj & Hitems).
    apply NoDup_cons in Hitems as [Hk Hrest].
    assert (Hnd' : NoDup (Dict.keys acc ++ Dict.keys rest)).
    { apply NoDup_app. split_and!; [done | | done].
      intros x Hx Hx'. apply (Hdisj x Hx). by right. }
    destruct (Str.startswith k "__"); cbn [negb andb orb] in *; [by apply IH |].
    destruct (isinstance_FunctionType v); cbn [negb andb orb] in *; [| by apply IH].
    destruct (_get_method_annotation v) as [a|e]; [| done].
    cbn [bind] in Hloop.
    assert (Hfresh : ~ In k (Dict.keys acc)).
    { intros Hin. apply (Hdisj k); [by apply list_elem_of_In | by left]. }
    apply IH in Hloop.
    + rewrite Hloop, (keys_set_fresh _ _ _ Hfresh).
      change (Dict.keys ((k, v) :: List.filter plain_method rest))
        with (k :: Dict.keys (List.filter plain_method rest)).
      by rewrite <- app_assoc.
    + rewrite (keys_set_fresh _ _ _ Hfresh), <- app_assoc.
      apply NoDup_app. split_and!; [done | | by apply NoDup_cons].
      intros x Hx Hx'. by apply (Hdisj x Hx).
Qed.

Lemma get_methods_keys (klass : PyClass) ms :
  Dict.wf (cls_dict klass) ->
  _get_methods klass = Ok ms ->
  Dict.keys ms = Dict.keys (List.filter plain_method (cls_dict klass)).
Proof.
  intros Hwf H. by apply get_methods_loop_keys in H.
Qed.

Lemma classic_fields_loop_keys (klass : PyClass) ms (ks : list string) :
  forall acc fs,
    _get_classic_fields_loop klass ms ks acc = Ok fs ->
    forall k, In k (Dict.keys fs) <->
              In k (Dict.keys acc) \/
              (In k ks /\ Str.startswith k "__" = false /\ Dict.contains ms k = false).
Proof.
  induction ks as [|k0 ks IH]; intros acc fs Hloop k.
  - simpl in Hloop. injection Hloop as <-. simpl. tauto.
  - simpl in Hloop.
    destruct (Str.startswith k0 "__" || Dict.contains ms k0) eqn:Hskip.
    + rewrite (IH _ _ Hloop). simpl. split; [tauto |].
      intros [?|([->|?] & Hd & Hc)]; [tauto | | tauto].
      rewrite Hd, Hc in Hskip. done.
    + apply orb_false_iff in Hskip as [Hd Hc].
      destruct (_get_annotations klass) as [annotations|e]; [| done].
      simpl in Hloop. rewrite (IH _ _ Hloop), keys_set_elem. simpl.
      split; [intros [[?| ->]|?]; tauto |].
      intros [?|([->|?] & ? & ?)]; tauto.
Qed.

(** The normalizer keeps the method and field maps of the style it
    dispatches to. *)
Lemma class_structure_parts (klass : PyClass) cd :
  _get_class_structure klass = Ok cd ->
  exists cs,
    (if is_dataclass klass then _get_dataclass_structure klass
     else _get_classic_class_structure klass) = Ok cs /\
    fields cd = fields cs /\ methods cd = methods cs /\
    module cd = cls_module klass /\
    _get_fullname (value_of_type (cls_type klass)) = Ok (name cd) /\
    _get_bases_loop (_get_base_classes klass) [] = Ok (bases cd).
Proof.
  unfold _get_class_structure. intros H.
  destruct (if is_dataclass klass then _ else _) as [cs|e] eqn:Hcs; [| done].
  cbn [bind] in H.
  destruct (_get_fullname (value_of_type (cls_type klass))) as [n|e] eqn:Hn;
    [| done].
  cbn [bind] in H.
  destruct (_get_bases_loop (_get_base_classes klass) []) as [bs|e] eqn:Hbs;
    [| done].
  cbn [bind] in H. injection H as <-. exists cs. by split_and!.
Qed.

Lemma class_structure_methods (klass : PyClass) cd :
  _get_class_structure klass = Ok cd -> _get_methods klass = Ok (methods cd).
Proof.
  intros (cs & Hcs & _ & -> & _)%class_structure_parts.
  destruct (is_dataclass klass).
  - unfold _get_dataclass_structure in Hcs.
    destruct (getattr_dataclass_fields klass); [| done]. simpl in Hcs.
    destruct (dict_comprehension getattr_name _ _); [| done]. simpl in Hcs.
    destruct (_get_methods klass); [| done]. simpl in Hcs. by injection Hcs as <-.
  - unfold _get_classic_class_structure in Hcs.
    destruct (_get_methods klass); [| done]. simpl in Hcs.
    destruct (_get_classic_fields_loop _ _ _ _); [| done]. simpl in Hcs.
    by injection Hcs as <-.
Qed.

End Methods.

(** C10. The methods of a normalized entity are exactly the entries of
    its own dictionary whose name does not start with ["__"] and whose
    value is a plain function, in dictionary order; a [staticmethod] or
    [classmethod] wrapper is never among them; and in a classic-style
    entity such a wrapper (under a name that is not excluded by the
    ["__"] prefix) is a key of [fields]. *)
Theorem methods_are_plain_functions (klass : PyClass) (cd : ClassDef) :
  Dict.wf (cls_dict klass) ->
  _get_class_structure klass = Ok cd ->
  Dict.keys (methods cd) = Dict.keys (List.filter plain_method (cls_dict klass)) /\
  (forall k, In k (Dict.keys (methods cd)) <->
             exists annotations,
               In (k, FunctionType annotations) (cls_dict klass) /\
               Str.startswith k "__" = false) /\
  (forall k v, In (k, v) (cls_dict klass) -> is_wrapper v ->
               ~ In k (Dict.keys (methods cd))) /\
  (is_dataclass klass = false ->
   forall k v, In (k, v) (cls_dict klass) -> is_wrapper v ->
               Str.startswith k "__" = false ->
               In k (Dict.keys (fields cd))).
Proof.
  intros Hwf Hcd.
  pose proof (class_structure_methods _ _ Hcd) as Hm.
  pose proof (get_methods_keys _ _ Hwf Hm) as Hkeys.
  assert (Hchar : forall k, In k (Dict.keys (methods cd)) <->
            exists annotations,
              In (k, FunctionType annotations) (cls_dict klass) /\
              Str.startswith k "__" = false).
  { intros k. rewrite Hkeys. unfold Dict.keys. rewrite in_map_iff. split.
    - intros ([k' v] & <- & Hin). apply filter_In in Hin as [Hin Hp].
      unfold plain_method in Hp. simpl in *.
      apply andb_true_iff in Hp as [Hd Hf]. destruct v; try done.
      exists annotations. split; [done |]. by destruct (Str.startswith k' "__").
    - intros (a & Hin & Hd). exists (k, FunctionType a). split; [done |].
      apply filter_In. split; [done |]. unfold plain_method. simpl. by rewrite Hd. }
  assert (Hwrap : forall k v, In (k, v) (cls_dict klass) -> is_wrapper v ->
                    ~ In k (Dict.keys (methods cd))).
  { intros k v Hin Hw Hk. apply Hchar in Hk as (a & Hin' & _).
    pose proof (wf_functional _ _ _ _ Hwf Hin Hin') as ->.
    by destruct Hw. }
  split_and!; [done | done | done |].
  intros Hclassic k v Hin Hw Hd.
  destruct (class_structure_parts _ _ Hcd) as (cs & Hcs & -> & Hms & _).
  rewrite Hclassic in Hcs. unfold _get_classic_class_structure in Hcs.
  rewrite Hm in Hcs. simpl in Hcs.
  destruct (_get_classic_fields_loop _ _ _ _) as [fs|e] eqn:Hloop; [| done].
  simpl in Hcs. injection Hcs as <-. simpl.
  apply (classic_fields_loop_keys _ _ _ _ _ Hloop). right. split_and!.
  - unfold Dict.keys. apply in_map_iff. by exists (k, v).
  - done.
  - destruct (Dict.contains (methods cd) k) eqn:Hc; [| done].
    apply contains_keys in Hc. by destruct (Hwrap k v).
Qed.

Lemma methods_are_plain_functions_account :
  Dict.keys (methods Samples.account_structure) = ["public_method"] /\
  ~ In "build" (Dict.keys (methods Samples.account_structure)) /\
  In "create" (Dict.keys (fields Samples.account_structure)).
Proof.
  assert (Hwf : Dict.wf (cls_dict Samples.account)).
  { unfold Dict.wf. refine (bool_decide_unpack _ _). vm_compute. exact I. }
  destruct (methods_are_plain_functions Samples.account Samples.account_structure
              Hwf eq_refl) as (Hkeys & _ & Hwrap & Hfield).
  split; [exact Hkeys |]. split.
  - apply (Hwrap "build" StaticMethod); [simpl; tauto | by left].
  - apply (Hfield eq_refl "create" ClassMethod); [simpl; tauto | by right | done].
Defined.

(** ** Name resolution *)

Section Names.

(** Whenever [_get_fullname] returns, it returns what the three-tier
    rule says. *)
Lemma get_fullname_three_tier (v : PyValue) (s : string) :
  _get_fullname v = Ok s -> s = three_tier_rule v.
Proof.
  unfold _get_fullname, three_tier_rule, getattr_name.
  destruct (v_module v), (v_name v); simpl; congruence.
Qed.

(** It returns for every value but one that shows a [__module__] and
    no [__name__]; there it raises. *)
Lemma get_fullname_nameable (v : PyValue) :
  nameable v -> _get_fullname v = Ok (three_tier_rule v).
Proof.
  unfold nameable, _get_fullname, three_tier_rule, getattr_name.
  destruct (v_module v), (v_name v); simpl; intros [?|?]; congruence.
Qed.

Lemma get_fullname_raises (v : PyValue) (m : string) :
  v_module v = Some m -> v_name v = None ->
  _get_fullname v = Raise (AttributeError "__name__").
Proof.
  unfold _get_fullname, getattr_name. by intros -> ->.
Qed.

Lemma get_fullname_type (t : PyType) :
  _get_fullname (value_of_type t) = Ok (fullname_of_type t).
Proof. reflexivity. Qed.

Lemma get_bases_loop_map (refs : list PyType) :
  forall acc, _get_bases_loop refs acc = Ok (acc ++ map fullname_of_type refs).
Proof.
  induction refs as [|t refs IH]; intros acc.
  - simpl. by rewrite app_nil_r.
  - change (_get_bases_loop (t :: refs) acc)
      with (n <- _get_fullname (value_of_type t) ;;
            _get_bases_loop refs (acc ++ [n])).
    rewrite get_fullname_type. cbn [bind]. rewrite IH.
    simpl map. by rewrite <- app_assoc.
Qed.

(** The bases of a normalized entity are the full names of what
    [_get_base_classes] keeps, in resolution order. *)
Lemma class_structure_bases (klass : PyClass) (cd : ClassDef) :
  _get_class_structure klass = Ok cd ->
  bases cd = map fullname_of_type (_get_base_classes klass) /\
  name cd = fullname_of_type (cls_type klass).
Proof.
  intros (cs & _ & _ & _ & _ & Hn & Hb)%class_structure_parts.
  rewrite get_bases_loop_map in Hb. rewrite get_fullname_type in Hn.
  injection Hb as <-. injection Hn as <-. done.
Qed.

(** When bare names tell the root type and the entity apart from the
    other ancestors, the filter by name is the filter by identity. *)
Lemma base_classes_by_identity (klass : PyClass) :
  mro_told_by_name klass -> _get_base_classes klass = proper_ancestors klass.
Proof.
  unfold mro_told_by_name, _get_base_classes, proper_ancestors.
  induction (cls_mro klass) as [|c l IH]; [done |]. intros H.
  simpl. rewrite IH by (intros c' Hc'; apply H; by right).
  destruct (H c (or_introl eq_refl)) as [Ho Hs].
  assert (E : base_class_kept klass c =
              negb (ty_id c =? ty_id object_type)%nat
              && negb (ty_id c =? ty_id (cls_type klass))%nat).
  { unfold base_class_kept.
    destruct (String.eqb_spec (ty_name c) "object") as [E1|E1],
             (String.eqb_spec (ty_name c) (cls_name klass)) as [E2|E2],
             (Nat.eqb_spec (ty_id c) (ty_id object_type)) as [E3|E3],
             (Nat.eqb_spec (ty_id c) (ty_id (cls_type klass))) as [E4|E4];
      simpl; tauto. }
  by rewrite E.
Qed.

End Names.

(** C1 (the code at the input that breaks the claim). The annotation
    [int] is resolved to ["builtins.int"] by [_get_fullname], and so is
    the field type of the classic-style class; the field type of the
    declarative-style class with the same field is the bare ["int"].
    A value that shows a [__module__] and no [__name__] makes
    [_get_fullname] raise where the rule gives the string rendering. *)
Theorem dataclass_field_type_is_bare_name :
  _get_fullname (value_of_type Samples.int_type) = Ok "builtins.int" /\
  three_tier_rule (value_of_type Samples.int_type) = "builtins.int" /\
  (exists cd, _get_classic_class_structure Samples.classic_point = Ok cd /\
              fields cd = [("x", "builtins.int")]) /\
  (exists cd, _get_dataclass_structure Samples.data_point = Ok cd /\
              fields cd = [("x", "int")]) /\
  _get_fullname Samples.instance_value = Raise (AttributeError "__name__") /\
  three_tier_rule Samples.instance_value = "<shapes.Unit object>".
Proof.
  split_and!; try reflexivity; eexists; split; reflexivity.
Qed.

(** C2 (the code at the input that breaks the claim). A classic-style
    and a declarative-style class [Point] with the same field [x: int = 0],
    no method and no base get the same name, bases and methods, and two
    different labels. *)
Theorem style_transparency_fails :
  cls_annotations Samples.classic_point = cls_annotations Samples.data_point /\
  exists c d,
    _get_class_structure Samples.classic_point = Ok c /\
    _get_class_structure Samples.data_point = Ok d /\
    name c = name d /\ bases c = bases d /\ methods c = methods d /\
    _get_entity_class_uml c = "{shapes.Point|+ x: builtins.int\l|\l}" /\
    _get_entity_class_uml d = "{shapes.Point|+ x: int\l|\l}" /\
    _get_entity_class_uml c <> _get_entity_class_uml d.
Proof.
  split; [reflexivity |]. eexists _, _.
  split; [reflexivity |]. split; [reflexivity |].
  split_and!; try reflexivity. by vm_compute.
Qed.

(** C4 (the code at the input that breaks the claim). [app.Model]
    derives from [orm.Model]: its resolution order without the root type
    and without itself is [orm.Model], but the filter compares bare names,
    so the normalized entity has no base and its label no parentheses. *)
Theorem homonymous_base_is_dropped :
  proper_ancestors Samples.app_model = [Samples.orm_model] /\
  _get_base_classes Samples.app_model = [] /\
  exists cd,
    _get_class_structure Samples.app_model = Ok cd /\
    bases cd = [] /\
    _get_entity_class_uml cd = "{app.Model|\l|\l}".
Proof.
  split; [reflexivity |]. split; [reflexivity |].
  eexists. split; [reflexivity |]. split; reflexivity.
Qed.

(** ** Diagram builder *)

Section Diagram.

Lemma create_diagram_loop_spec (classes_list : list ClassDef) (verbose : bool) :
  forall nodes edges out,
    create_diagram_loop classes_list verbose nodes edges out =
      (nodes ++ map (fun k => (name k, _get_entity_class_uml k)) classes_list,
       edges ++ flat_map edges_of classes_list,
       out ++ (if verbose
               then map (fun k => "[II] " +:+ name k +:+ " - included.") classes_list
               else [])).
Proof.
  induction classes_list as [|k rest IH]; intros nodes edges out.
  - simpl. destruct verbose; by rewrite !app_nil_r.
  - simpl. rewrite IH. destruct verbose; simpl; by rewrite <- !app_assoc.
Qed.

Lemma create_diagram_graph (classes_list : list ClassDef) (verbose : bool) :
  fst (create_diagram classes_list verbose) =
    {| g_comment := "Graph";
       g_node_attr := [("shape", "record"); ("rankdir", "BT")];
       g_nodes := map (fun k => (name k, _get_entity_class_uml k)) classes_list;
       g_edges := list_to_set (flat_map edges_of classes_list) |}.
Proof.
  unfold create_diagram. by rewrite create_diagram_loop_spec.
Qed.

Lemma in_edges_of (b d : string) (classes_list : list ClassDef) :
  In (b, d) (flat_map edges_of classes_list) <->
  exists k, In k classes_list /\ name k = d /\ In b (bases k).
Proof.
  rewrite in_flat_map. unfold edges_of. split.
  - intros (k & Hk & Hin). apply in_map_iff in Hin as (b' & [= -> <-] & Hb).
    by exists k.
  - intros (k & Hk & <- & Hb). exists k. split; [done |].
    apply in_map_iff. by exists b.
Qed.

End Diagram.

(** C6. The graph has one node statement per entity of the list, in list
    order, keyed by the entity's name and labelled by the formatter; a
    pair [(base, derived)] is an edge exactly when some entity named
    [derived] lists [base] among its bases; and the edges, enumerated,
    show no pair twice. *)
Theorem diagram_nodes_and_edges (classes_list : list ClassDef) (verbose : bool) :
  let g := fst (create_diagram classes_list verbose) in
  g_nodes g = map (fun k => (name k, _get_entity_class_uml k)) classes_list /\
  List.length (g_nodes g) = List.length classes_list /\
  (forall b d, (b, d) ∈ g_edges g <->
               exists k, In k classes_list /\ name k = d /\ In b (bases k)) /\
  NoDup (elements (g_edges g)) /\
  (forall e, e ∈ elements (g_edges g) <-> e ∈ g_edges g).
Proof.
  intros g. subst g. rewrite create_diagram_graph. simpl. split_and!.
  - done.
  - by rewrite length_map.
  - intros b d. rewrite elem_of_list_to_set, list_elem_of_In. apply in_edges_of.
  - apply NoDup_elements.
  - intros e. apply elem_of_elements.
Qed.

(** Two entities that declare the same pair give one edge. *)
Example diagram_repeated_pair_once :
  let k := {| name := "m.Derived"; module := "m"; bases := ["m.Base"];
              fields := []; methods := [] |} in
  g_edges (fst (create_diagram [k; k] false)) = {[ ("m.Base", "m.Derived") ]} /\
  size (g_edges (fst (create_diagram [k; k] false))) = 1.
Proof.
  intros k. rewrite create_diagram_graph.
  assert (E : g_edges
                {| g_comment := "Graph";
                   g_node_attr := [("shape", "record"); ("rankdir", "BT")];
                   g_nodes := map (fun k => (name k, _get_entity_class_uml k)) [k; k];
                   g_edges := list_to_set (flat_map edges_of [k; k]) |}
              = {[ ("m.Base", "m.Derived") ]}).
  { simpl. unfold edges_of. simpl. set_solver. }
  rewrite E. split; [done | apply size_singleton].
Qed.

(** ** Entity loader *)

Section Loader.
Variable rt : Runtime.

(** The loader, by the outcome of the import. *)
Lemma loader_cases (path : string) (w : World) :
  _get_classes_from_module rt path w =
    match import_of rt path w with
    | (Ok module, w2) =>
        (Ok (classes_of_module (mod_dir module)), set_sys_path (sys_path w) w2)
    | (Raise KeyboardInterrupt, w2) => raise_error "KeyboardInterrupt" 1 w2
    | (Raise e, w2) =>
        if isinstance_Exception e
        then (Ok [],
              print (Str.repeat "."%char 80)
                (print (exception_text e)
                   (print (error_banner (snd (_extract_module_name path))) w2)))
        else (Raise e, w2)
    end.
Proof.
  unfold _get_classes_from_module, import_of, world_at_import.
  destruct (_extract_module_name path) as [dir module_name]. reflexivity.
Qed.

Lemma loader_ok path w module w2 :
  import_of rt path w = (Ok module, w2) ->
  _get_classes_from_module rt path w =
    (Ok (classes_of_module (mod_dir module)), set_sys_path (sys_path w) w2).
Proof. intros H. by rewrite loader_cases, H. Qed.

Lemma loader_interrupt path w w2 :
  import_of rt path w = (Raise KeyboardInterrupt, w2) ->
  _get_classes_from_module rt path w =
    (Raise (typer_Exit 1),
     echo_err (typer_style_red_bold "KeyboardInterrupt") w2).
Proof. intros H. by rewrite loader_cases, H. Qed.

Lemma loader_caught path w e w2 :
  import_of rt path w = (Raise e, w2) ->
  isinstance_Exception e = true ->
  _get_classes_from_module rt path w =
    (Ok [],
     print (Str.repeat "."%char 80)
       (print (exception_text e)
          (print (error_banner (snd (_extract_module_name path))) w2))).
Proof.
  intros H He. rewrite loader_cases, H. destruct e; try done.
Qed.

Lemma loader_uncaught path w e w2 :
  import_of rt path w = (Raise e, w2) ->
  isinstance_Exception e = false -> e <> KeyboardInterrupt ->
  _get_classes_from_module rt path w = (Raise e, w2).
Proof.
  intros H He Hk. rewrite loader_cases, H. destruct e; try done.
Qed.

(** The loader returns normally exactly on a recoverable import. *)
Lemma loader_returns_iff path w :
  (exists cs, fst (_get_classes_from_module rt path w) = Ok cs) <->
  import_recoverable (fst (import_of rt path w)) = true.
Proof.
  rewrite loader_cases.
  destruct (import_of rt path w) as [[m|e] w2]; simpl.
  - split; [done | by eexists].
  - destruct e; simpl; split; try done; try (by eexists); by intros [? ?].
Qed.

(** On success the search path is the one saved before the import. *)
Lemma loader_restores_on_success path w module w2 :
  import_of rt path w = (Ok module, w2) ->
  sys_path (snd (_get_classes_from_module rt path w)) = sys_path w.
Proof. intros H. by rewrite (loader_ok _ _ _ _ H). Qed.

(** On a caught failure or an interrupt the search path is left as the
    import left it. *)
Lemma loader_keeps_path_on_failure path w e w2 :
  import_of rt path w = (Raise e, w2) ->
  sys_path (snd (_get_classes_from_module rt path w)) = sys_path w2.
Proof.
  intros H. rewrite loader_cases, H.
  destruct e; simpl; done.
Qed.

Lemma banner_names_module (module_name : string) :
  occurs_in module_name (error_banner module_name).
Proof.
  unfold error_banner, Str.center.
  set (text := " Error loading module " +:+ module_name +:+ " ").
  destruct (80 <=? String.length text)%nat.
  - by exists " Error loading module ", " ".
  - set (marg := (80 - String.length text)%nat).
    set (left := (marg / 2 + _)%nat).
    exists (Str.repeat "="%char left +:+ " Error loading module "),
           (" " +:+ Str.repeat "="%char (marg - left)).
    unfold text. by rewrite !str_app_assoc.
Qed.

(** [raise_error] leaves the styled message last on the error stream. *)
Lemma raise_error_aborts {A} (message : string) (w : World) :
  aborted_with_styled_message (@raise_error A message 1 w).
Proof.
  exists 1%Z, message. split_and!; [done | done |].
  simpl. apply last_snoc.
Qed.

(** *** The loop over the files *)

Lemma load_files_cons f rest acc w :
  load_files rt (f :: rest) acc w =
    match _get_classes_from_module rt f w with
    | (Ok cs, w') => load_files rt rest (acc ++ cs) w'
    | (Raise e, w') => (Raise e, w')
    end.
Proof. reflexivity. Qed.

Lemma interrupt_aborts (files : list string) (w : World) :
  interrupt_reached rt files w ->
  forall acc, aborted_with_styled_message (load_files rt files acc w).
Proof.
  induction 1 as [f rest w Hk | f rest w Hrec _ IH]; intros acc.
  - rewrite load_files_cons.
    destruct (import_of rt f w) as [r w2] eqn:E. simpl in Hk. subst r.
    rewrite (loader_interrupt _ _ _ E).
    apply (@raise_error_aborts (list PyClass) "KeyboardInterrupt" w2).
  - rewrite load_files_cons.
    apply loader_returns_iff in Hrec as [cs Hcs].
    destruct (_get_classes_from_module rt f w) as [r w'].
    simpl in Hcs. subst r. apply IH.
Qed.

Lemma typer_exit_is_interrupt (files : list string) :
  forall acc w code,
    fst (load_files rt files acc w) = Raise (typer_Exit code) ->
    interrupt_reached rt files w.
Proof.
  induction files as [|f rest IH]; intros acc w code H; [done |].
  rewrite load_files_cons in H.
  destruct (_get_classes_from_module rt f w) as [[cs|e] w'] eqn:E.
  - apply interrupt_later.
    + apply loader_returns_iff. exists cs. by rewrite E.
    + rewrite E. simpl. by apply IH with (acc ++ cs) code.
  - simpl in H. injection H as ->. apply interrupt_here.
    rewrite loader_cases in E.
    destruct (import_of rt f w) as [[m|e] w2]; [done |]. simpl.
    destruct e; done.
Qed.

(** When every import succeeds or raises an [Exception], every file is
    visited and the loop returns. *)
Lemma load_files_returns (files : list string) :
  (forall f w, In f files -> import_recoverable (fst (import_of rt f w)) = true) ->
  forall acc w, exists cs, fst (load_files rt files acc w) = Ok cs.
Proof.
  induction files as [|f rest IH]; intros Hrec acc w; [by eexists |].
  rewrite load_files_cons.
  destruct (proj2 (loader_returns_iff f w) (Hrec f w (or_introl eq_refl)))
    as [cs Hcs].
  destruct (_get_classes_from_module rt f w) as [r w']. simpl in Hcs. subst r.
  apply IH. intros f' w'' Hin. apply Hrec. by right.
Qed.

End Loader.

(** ** What the normalizer can raise *)

Section NormalizerErrors.

Lemma only_attr_ok {A} (a : A) : raises_only_AttributeError (Ok a).
Proof. intros e H. done. Qed.

Lemma only_attr_bind {A B} (m : result A) (k : A -> result B) :
  raises_only_AttributeError m ->
  (forall a, raises_only_AttributeError (k a)) ->
  raises_only_AttributeError (bind m k).
Proof.
  intros Hm Hk e. destruct m as [a|e']; simpl.
  - apply Hk.
  - intros [= <-]. by apply Hm.
Qed.

Lemma only_attr_getattr_name v : raises_only_AttributeError (getattr_name v).
Proof.
  unfold getattr_name. destruct (v_name v); intros e; [done |].
  intros [= <-]. by eexists.
Qed.

Lemma only_attr_get_fullname v : raises_only_AttributeError (_get_fullname v).
Proof.
  unfold _get_fullname. destruct (v_module v).
  - apply only_attr_bind; [apply only_attr_getattr_name |].
    intros a. apply only_attr_ok.
  - destruct (v_name v); apply only_attr_ok.
Qed.

Lemma only_attr_comprehension {V W} (f : V -> result W) (items : dict V) :
  (forall v, raises_only_AttributeError (f v)) ->
  forall acc, raises_only_AttributeError (dict_comprehension f items acc).
Proof.
  intros Hf. induction items as [|[k v] rest IH]; intros acc.
  - apply only_attr_ok.
  - simpl. apply only_attr_bind; [apply Hf | intros w; apply IH].
Qed.

Lemma only_attr_get_methods_loop (items : dict PyMember) :
  forall acc, raises_only_AttributeError (_get_methods_loop items acc).
Proof.
  induction items as [|[k v] rest IH]; intros acc.
  - apply only_attr_ok.
  - simpl. destruct (_ || _); [apply IH |].
    apply only_attr_bind; [| intros a; apply IH].
    apply only_attr_comprehension, only_attr_get_fullname.
Qed.

Lemma only_attr_classic_fields klass ms (ks : list string) :
  forall acc, raises_only_AttributeError (_get_classic_fields_loop klass ms ks acc).
Proof.
  induction ks as [|k ks IH]; intros acc.
  - apply only_attr_ok.
  - simpl. destruct (_ || _); [apply IH |].
    apply only_attr_bind; [| intros a; apply IH].
    apply only_attr_comprehension, only_attr_get_fullname.
Qed.

Lemma only_attr_class_structure klass :
  raises_only_AttributeError (_get_class_structure klass).
Proof.
  unfold _get_class_structure. apply only_attr_bind.
  - destruct (is_dataclass klass).
    + unfold _get_dataclass_structure. apply only_attr_bind.
      * unfold getattr_dataclass_fields.
        destruct (cls_dataclass_fields klass); intros e; [done |].
        intros [= <-]. by eexists.
      * intros dc. apply only_attr_bind.
        { apply only_attr_comprehension, only_attr_getattr_name. }
        intros fs. apply only_attr_bind; [apply only_attr_get_methods_loop |].
        intros ms. apply only_attr_ok.
    + unfold _get_classic_class_structure. apply only_attr_bind.
      * apply only_attr_get_methods_loop.
      * intros ms. apply only_attr_bind; [apply only_attr_classic_fields |].
        intros fs. apply only_attr_ok.
  - intros cs. apply only_attr_bind; [apply only_attr_get_fullname |].
    intros n. rewrite get_bases_loop_map. apply only_attr_ok.
Qed.

Lemma only_attr_normalize_all (classes_list : list PyClass) :
  forall acc, raises_only_AttributeError (normalize_all classes_list acc).
Proof.
  induction classes_list as [|c rest IH]; intros acc.
  - apply only_attr_ok.
  - simpl. apply only_attr_bind; [apply only_attr_class_structure |].
    intros s. apply IH.
Qed.

Lemma normalize_all_no_exit (classes_list : list PyClass) code :
  normalize_all classes_list [] <> Raise (typer_Exit code).
Proof.
  intros H. by destruct (only_attr_normalize_all _ _ _ H).
Qed.

End NormalizerErrors.

(** ** Pipeline orchestrator *)

Section Orchestrator.
Variable rt : Runtime.

Lemma load_classes_missing source verbose w :
  os_path_exists rt source = false ->
  load_classes_definition rt source verbose w =
    raise_error
      ("Path " +:+ DQUOTE +:+ source +:+ DQUOTE +:+ " doesn't  exist.") 1 w.
Proof. unfold load_classes_definition. by intros ->. Qed.

Lemma load_classes_present source verbose w :
  os_path_exists rt source = true ->
  load_classes_definition rt source verbose w =
    match load_files rt (source_files rt source) [] (enter_source rt source w) with
    | (Ok classes_list, w') => (normalize_all classes_list [], w')
    | (Raise e, w') => (Raise e, w')
    end.
Proof. unfold load_classes_definition. by intros ->. Qed.

(** The run ends through [raise_error] exactly when the path does not
    exist or an interrupt is reached while loading. *)
Lemma run_aborts_iff source verbose w :
  aborted_with_styled_message (load_classes_definition rt source verbose w) <->
  os_path_exists rt source = false \/
  interrupt_reached rt (source_files rt source) (enter_source rt source w).
Proof.
  destruct (os_path_exists rt source) eqn:Hex.
  - rewrite (load_classes_present _ _ _ Hex). split.
    + intros (code & message & Hr & _ & _). right.
      destruct (load_files rt _ [] _) as [[cs|e] w'] eqn:E; simpl in Hr.
      * by destruct (normalize_all_no_exit cs code).
      * injection Hr as ->. apply typer_exit_is_interrupt with [] code.
        by rewrite E.
    + intros [|Hint]; [done |].
      pose proof (interrupt_aborts rt _ _ Hint []) as Hab.
      destruct Hab as (code & message & Hr & Hcode & Hlast).
      destruct (load_files rt _ [] _) as [[cs|e] w'] eqn:E; [done |].
      simpl in Hr. injection Hr as ->. by exists code, message.
  - rewrite (load_classes_missing _ _ _ Hex). split; [by left |].
    intros _. apply (@raise_error_aborts (list ClassDef)).
Qed.

(** When every file loads, the directory put on the search path by the
    orchestrator is still there after the run. *)
Lemma load_files_all_loaded (files : list string) :
  (forall f w, In f files -> exists m w2, import_of rt f w = (Ok m, w2)) ->
  forall acc w, sys_path (snd (load_files rt files acc w)) = sys_path w.
Proof.
  induction files as [|f rest IH]; intros Hok acc w; [done |].
  rewrite load_files_cons.
  destruct (Hok f w (or_introl eq_refl)) as (m & w2 & Him).
  rewrite (loader_ok _ _ _ _ _ Him). rewrite IH; [done |].
  intros f' w' Hin. apply Hok. by right.
Qed.

Lemma directory_entry_stays_on_path source verbose w :
  os_path_exists rt source = true ->
  os_path_isdir rt source = true ->
  (forall f w, In f (source_files rt source) ->
               exists m w2, import_of rt f w = (Ok m, w2)) ->
  sys_path (snd (load_classes_definition rt source verbose w))
    = source :: sys_path w.
Proof.
  intros Hex Hdir Hok. rewrite (load_classes_present _ _ _ Hex).
  pose proof (load_files_all_loaded _ Hok [] (enter_source rt source w)) as Hp.
  destruct (load_files rt _ [] _) as [[cs|e] w']; simpl in *;
    rewrite Hp; unfold enter_source; by rewrite Hdir.
Qed.

End Orchestrator.

(** C3 (the code at the inputs that break the claim). After a file that
    loads, [sys.path] is what it was; after a file whose import raises an
    error that is caught, and after one whose import is interrupted, the
    directory of the file is still first on [sys.path]; after a run on the
    directory [proj] the path holds the directory put there by the
    orchestrator and the one left by the failed file. *)
Theorem sys_path_leaks_after_failed_import :
  let w := Samples.world0 in
  let rt := Samples.runtime in
  sys_path (snd (_get_classes_from_module rt "proj/good.py" w)) = sys_path w /\
  fst (_get_classes_from_module rt "proj/broken.py" w) = Ok [] /\
  sys_path (snd (_get_classes_from_module rt "proj/broken.py" w))
    = "proj" :: sys_path w /\
  fst (_get_classes_from_module rt "proj/stopped.py" w) = Raise (typer_Exit 1) /\
  sys_path (snd (_get_classes_from_module rt "proj/stopped.py" w))
    = "proj" :: sys_path w /\
  sys_path (snd (load_classes_definition rt "proj" false w))
    = ["proj"; "proj"; "/usr/lib/python3"].
Proof.
  by vm_compute.
Qed.

(** C5 (the claim as stated fails). An import that raises [SystemExit]
    is not caught by the loader: the exception leaves the loader and the
    file list is abandoned. *)
Lemma system_exit_escapes_loader : ~ every_other_error_is_caught.
Proof.
  intros H.
  specialize (H Samples.runtime "proj/exits.py" Samples.world0 (SystemExit 3)).
  by specialize (H eq_refl ltac:(done)).
Qed.

(** C5 (as amended). The run ends with the styled message and a non-zero
    exit code exactly when the path does not exist or a
    [KeyboardInterrupt] is reached while loading.  An import error that
    derives from [Exception] is caught by the loader: the banner naming
    the module, the error text and a dotted line are printed, the file
    gives no entity and the loader returns.  An exception outside
    [Exception] other than the interrupt leaves the loader as it is.  When
    the path exists and every import succeeds or raises an [Exception],
    all files are visited and what the run returns is what normalization
    returns. *)
Theorem loader_failure_taxonomy (rt : Runtime) (source : string)
    (verbose : bool) (w : World) :
  (aborted_with_styled_message (load_classes_definition rt source verbose w) <->
   os_path_exists rt source = false \/
   interrupt_reached rt (source_files rt source) (enter_source rt source w)) /\
  (forall path w0 e,
     fst (import_of rt path w0) = Raise e -> isinstance_Exception e = true ->
     fst (_get_classes_from_module rt path w0) = Ok [] /\
     stdout (snd (_get_classes_from_module rt path w0))
       = stdout (snd (import_of rt path w0))
           ++ [ error_banner (snd (_extract_module_name path));
                exception_text e; Str.repeat "."%char 80 ] /\
     occurs_in (snd (_extract_module_name path))
               (error_banner (snd (_extract_module_name path)))) /\
  (forall path w0 e,
     fst (import_of rt path w0) = Raise e ->
     isinstance_Exception e = false -> e <> KeyboardInterrupt ->
     fst (_get_classes_from_module rt path w0) = Raise e) /\
  (os_path_exists rt source = true ->
   (forall f w0, In f (source_files rt source) ->
                 import_recoverable (fst (import_of rt f w0)) = true) ->
   exists classes_list,
     fst (load_files rt (source_files rt source) [] (enter_source rt source w))
       = Ok classes_list /\
     fst (load_classes_definition rt source verbose w)
       = normalize_all classes_list []).
Proof.
  split_and!.
  - apply run_aborts_iff.
  - intros path w0 e Him He.
    destruct (import_of rt path w0) as [r w2] eqn:E. simpl in Him. subst r.
    rewrite (loader_caught _ _ _ _ _ E He). simpl. split_and!.
    + done.
    + by rewrite <- !app_assoc.
    + apply banner_names_module.
  - intros path w0 e Him He Hk.
    destruct (import_of rt path w0) as [r w2] eqn:E. simpl in Him. subst r.
    by rewrite (loader_uncaught _ _ _ _ _ E He Hk).
  - intros Hex Hrec.
    destruct (load_files_returns rt _ Hrec [] (enter_source rt source w))
      as [cs Hcs].
    exists cs. split; [done |].
    rewrite (load_classes_present _ _ _ _ Hex).
    destruct (load_files rt _ [] _) as [r w']. simpl in Hcs. by subst r.
Qed.

Lemma loader_failure_taxonomy_broken_file :
  fst (_get_classes_from_module Samples.runtime "proj/broken.py" Samples.world0)
    = Ok [] /\
  aborted_with_styled_message
    (load_classes_definition Samples.runtime "missing" false Samples.world0).
Proof.
  destruct (loader_failure_taxonomy Samples.runtime "missing" false Samples.world0)
    as (Habort & Hcaught & _ & _).
  split.
  - apply (Hcaught "proj/broken.py" Samples.world0
             (Exception "SyntaxError" "invalid syntax")); reflexivity.
  - apply Habort. left. reflexivity.
Defined.

(** C10 (the claim as stated fails). A [classmethod] wrapper stored
    under a name that starts with ["__"] is neither a method nor a field
    of the classic-style entity. *)
Lemma dunder_wrapper_is_no_field :
  is_dataclass Samples.generic_box = false /\
  In ("__class_getitem__", ClassMethod) (cls_dict Samples.generic_box) /\
  exists cd,
    _get_class_structure Samples.generic_box = Ok cd /\
    ~ In "__class_getitem__" (Dict.keys (methods cd)) /\
    ~ In "__class_getitem__" (Dict.keys (fields cd)).
Proof.
  split; [reflexivity |]. split; [simpl; tauto |].
  eexists. split; [reflexivity |]. simpl. tauto.
Qed.

(** ** Further properties of the code *)

Lemma join_nonempty (sep x : string) (l : list string) :
  x <> "" -> Str.join sep (x :: l) <> "".
Proof.
  intros Hx. destruct x as [|c x]; [done |].
  destruct l; [done |]. rewrite join_cons by done. by rewrite str_app_cons.
Qed.

(** When the bare names ["object"] and [klass.__name__] occur in the
    resolution order on the root type and on the entity only, the bases of
    the normalized entity are the full names of its resolution order
    without the root type and the entity, in that order, and a non-empty
    list of them is what the label shows between parentheses. *)
Theorem bases_follow_resolution_order (klass : PyClass) (cd : ClassDef) :
  mro_told_by_name klass ->
  _get_class_structure klass = Ok cd ->
  bases cd = map fullname_of_type (proper_ancestors klass) /\
  (proper_ancestors klass <> [] ->
   exists rest,
     _get_entity_class_uml cd =
       "{" +:+ (name cd +:+ " (" +:+
                Str.join ", " (map fullname_of_type (proper_ancestors klass)) +:+ ")")
           +:+ "|" +:+ rest).
Proof.
  intros Hmro Hcd. destruct (class_structure_bases _ _ Hcd) as [Hb _].
  rewrite (base_classes_by_identity _ Hmro) in Hb. split; [exact Hb |].
  intros Hne. destruct (uml_header_cases cd) as (header & rest & Hl & _ & Hh).
  exists rest. rewrite Hl, Hh, Hb; [done |].
  rewrite Hb. destruct (proper_ancestors klass) as [|t l]; [done |].
  apply join_nonempty. unfold fullname_of_type. by destruct (ty_module t).
Qed.

Lemma bases_follow_resolution_order_derived :
  bases Samples.derived_structure = ["shapes.Base"] /\
  exists rest,
    _get_entity_class_uml Samples.derived_structure =
      "{" +:+ "shapes.Derived (shapes.Base)" +:+ "|" +:+ rest.
Proof.
  assert (Hmro : mro_told_by_name Samples.derived).
  { intros c [<-|[<-|[<-|[]]]]; split; split; by vm_compute. }
  destruct (bases_follow_resolution_order Samples.derived Samples.derived_structure
              Hmro eq_refl) as [Hb Hl].
  split; [exact Hb |]. apply Hl. by vm_compute.
Defined.



(** A value that shows a [__name__] whenever it shows a [__module__] is
    rendered by the three-tier rule, and the annotations of a method are
    rendered by it one by one. *)
Theorem fullname_follows_three_tier_rule (v : PyValue) :
  nameable v ->
  _get_fullname v = Ok (three_tier_rule v) /\
  _get_method_annotation (FunctionType [("return", v)])
    = Ok [("return", three_tier_rule v)].
Proof.
  intros Hv. split; [by apply get_fullname_nameable |].
  unfold _get_method_annotation. simpl.
  by rewrite (get_fullname_nameable _ Hv).
Qed.

Lemma fullname_follows_three_tier_rule_none :
  _get_fullname Samples.none_value = Ok "None".
Proof.
  apply (fullname_follows_three_tier_rule Samples.none_value). by left.
Defined.

(** The string operations on sample inputs. *)
Example split_sample : Str.split "/"%char "pkg/sub/" = ["pkg"; "sub"; ""].
Proof. reflexivity. Qed.

Example rstrip_sample : Str.rstrip ".py" "copy.py" = "co".
Proof. reflexivity. Qed.

Example center_odd_margin : Str.center "ab" 5 "="%char = "==ab=".
Proof. reflexivity. Qed.

Example center_even_width : Str.center "abc" 6 "="%char = "=abc==".
Proof. reflexivity. Qed.

Example search_modules_sample :
  _search_modules Samples.runtime "proj" default_exclude_pattern
    = ["proj/good.py"; "proj/broken.py"].
Proof. reflexivity. Qed.

(** The label of the normalized sample class with a private field, a
    public method and two wrapped members. *)
Example account_label :
  _get_class_structure Samples.account = Ok Samples.account_structure /\
  _get_entity_class_uml Samples.account_structure =
    "{bank.Account|- _private: builtins.int\l+ build: \l+ create: \l|+ public_method()\l}".
Proof. split; reflexivity. Qed.

(** ** Paths and file names *)

Section PathFacts.

Lemma contains_unfold (x : string) (c : ascii) (s : string) :
  Str.contains x (String c s) = String.prefix x (String c s) || Str.contains x s.
Proof. reflexivity. Qed.

(** [x in s] holds exactly when [x] occurs in [s]. *)
Lemma contains_occurs (x s : string) :
  Str.contains x s = true <-> occurs_in x s.
Proof.
  split.
  - induction s as [|c s IH].
    + change (Str.contains x "") with (String.prefix x "" || false).
      rewrite orb_false_r. intros [rest Hr]%prefix_inv.
      exists "", rest. by rewrite str_app_nil_l.
    + rewrite contains_unfold. intros [Hp|Hc]%orb_true_iff.
      * apply prefix_inv in Hp as [rest Hr]. exists "", rest.
        by rewrite str_app_nil_l.
      * destruct (IH Hc) as (pre & post & ->).
        exists (String c pre), post. by rewrite str_app_cons.
  - intros (pre & post & ->). induction pre as [|c pre IH].
    + rewrite str_app_nil_l. destruct (x +:+ post) as [|d r] eqn:E.
      * change (Str.contains x "") with (String.prefix x "" || false).
        rewrite orb_false_r. rewrite <- E. apply prefix_app.
      * rewrite contains_unfold, <- E, prefix_app. done.
    + rewrite str_app_cons, contains_unfold, IH. apply orb_true_r.
Qed.

Lemma substring_split (s : string) :
  forall k, (k <= String.length s)%nat ->
    s = String.substring 0 k s +:+ String.substring k (String.length s - k) s.
Proof.
  induction s as [|c s IH]; intros k Hk.
  - simpl in Hk. by replace k with 0%nat by lia.
  - destruct k as [|k].
    + simpl. by rewrite substring_all.
    + simpl in Hk. simpl. rewrite str_app_cons. f_equal. apply IH. lia.
Qed.

Lemma endswith_inv (s suffix : string) :
  Str.endswith s suffix = true -> exists pre, s = pre +:+ suffix.
Proof.
  unfold Str.endswith. intros [Hle Heq]%andb_true_iff.
  apply Nat.leb_le in Hle. apply String.eqb_eq in Heq.
  exists (String.substring 0 (String.length s - String.length suffix) s).
  pose proof (substring_split s (String.length s - String.length suffix)
                ltac:(lia)) as Hs.
  replace (String.length s - (String.length s - String.length suffix))%nat
    with (String.length suffix) in Hs by lia.
  by rewrite Heq in Hs.
Qed.

Lemma endswith_iff (s suffix : string) :
  Str.endswith s suffix = true <-> exists pre, s = pre +:+ suffix.
Proof.
  split; [apply endswith_inv |]. intros [pre ->]. apply endswith_app.
Qed.

Lemma mem_app (c : ascii) (a b : string) :
  Str.mem c (a +:+ b) = Str.mem c a || Str.mem c b.
Proof.
  induction a as [|d a IH]; [done |].
  rewrite str_app_cons. simpl. rewrite IH. by rewrite orb_assoc.
Qed.

Lemma split_unfold (sep c : ascii) (s : string) :
  Str.split sep (String c s) =
    if Ascii.eqb c sep then EmptyString :: Str.split sep s
    else match Str.split sep s with
         | piece :: pieces => String c piece :: pieces
         | [] => [String c EmptyString]
         end.
Proof. reflexivity. Qed.

Lemma split_nonempty (sep : ascii) (s : string) : Str.split sep s <> [].
Proof.
  induction s as [|c s IH]; [done |]. rewrite split_unfold.
  destruct (Ascii.eqb c sep); [done |]. by destruct (Str.split sep s).
Qed.

Lemma join_cons_any (sep x : string) (l : list string) :
  exists tail, Str.join sep (x :: l) = x +:+ tail /\
               (l = [] -> tail = "") /\
               (l <> [] -> tail = sep +:+ Str.join sep l).
Proof.
  destruct l as [|y l].
  - exists "". split; [by rewrite str_app_nil_r | done].
  - exists (sep +:+ Str.join sep (y :: l)). by rewrite join_cons.
Qed.

(** Splitting at a separator and joining with it gives the string back. *)
Lemma split_join (sep : ascii) (s : string) :
  Str.join (String sep EmptyString) (Str.split sep s) = s.
Proof.
  induction s as [|c s IH]; [done |]. rewrite split_unfold.
  pose proof (split_nonempty sep s) as Hne.
  destruct (Ascii.eqb_spec c sep) as [->|Hc].
  - rewrite join_cons by done. rewrite IH. reflexivity.
  - destruct (Str.split sep s) as [|piece pieces]; [done |].
    destruct (join_cons_any (String sep EmptyString) piece pieces)
      as (t1 & E1 & _ & _).
    destruct pieces as [|q pieces].
    + simpl in *. by rewrite IH.
    + rewrite join_cons in * by done. rewrite str_app_cons. by rewrite IH.
Qed.

Lemma split_no_sep (sep : ascii) (s : string) :
  Str.mem sep s = false -> Str.split sep s = [s].
Proof.
  induction s as [|c s IH]; [done |]. simpl Str.mem.
  intros [Hc Hs]%orb_false_iff. rewrite split_unfold, (IH Hs).
  rewrite Ascii.eqb_sym in Hc. by rewrite Hc.
Qed.

Lemma split_pieces (sep : ascii) (s : string) :
  Forall (fun piece => Str.mem sep piece = false) (Str.split sep s).
Proof.
  induction s as [|c s IH]; [by repeat constructor |]. rewrite split_unfold.
  destruct (Ascii.eqb c sep) eqn:Hc; [by constructor |].
  pose proof (split_nonempty sep s) as Hne.
  destruct (Str.split sep s) as [|piece pieces]; [done |].
  apply Forall_cons in IH as [Hp Hps]. constructor; [| done].
  simpl. rewrite Ascii.eqb_sym, Hc. done.
Qed.

Lemma split_two (sep : ascii) (s : string) :
  Str.mem sep s = true -> exists a b rest, Str.split sep s = a :: b :: rest.
Proof.
  induction s as [|c s IH]; [done |]. simpl Str.mem. rewrite split_unfold.
  pose proof (split_nonempty sep s) as Hne.
  rewrite (Ascii.eqb_sym sep c).
  destruct (Ascii.eqb c sep); simpl.
  - intros _. destruct (Str.split sep s) as [|b rest]; [done |]. by eexists _, _, _.
  - intros Hs. destruct (IH Hs) as (a & b & rest & ->). by eexists _, _, _.
Qed.

Lemma split_app_sep (sep : ascii) (a b : string) :
  Str.mem sep a = false ->
  Str.split sep (a +:+ String sep b) = a :: Str.split sep b.
Proof.
  induction a as [|c a IH].
  - intros _. rewrite str_app_nil_l, split_unfold. by rewrite Ascii.eqb_refl.
  - simpl Str.mem. intros [Hc Ha]%orb_false_iff.
    rewrite str_app_cons, split_unfold, (IH Ha).
    rewrite Ascii.eqb_sym in Hc. by rewrite Hc.
Qed.

Lemma join_snoc (sep x : string) (l : list string) :
  l <> [] -> Str.join sep (l ++ [x]) = Str.join sep l +:+ sep +:+ x.
Proof.
  induction l as [|y l IH]; [done |]. intros _.
  destruct l as [|z l]; [reflexivity |].
  change ((y :: z :: l) ++ [x]) with (y :: ((z :: l) ++ [x])).
  rewrite join_cons by done. rewrite IH by done.
  rewrite (join_cons sep y (z :: l)) by done. by rewrite !str_app_assoc.
Qed.

Lemma last_Forall {A} (P : A -> Prop) (l : list A) (d : A) :
  Forall P l -> l <> [] -> P (List.last l d).
Proof.
  induction l as [|x l IH]; [done |]. intros [Hx Hl]%Forall_cons _.
  destruct l as [|y l]; [done |]. by apply IH.
Qed.

(** What is left by [rstrip] when nothing is to be removed. *)
Lemma rstrip_fixed (chars s : string) :
  (forall c, Str.last_char s = Some c -> Str.mem c chars = false) ->
  Str.rstrip chars s = s.
Proof.
  induction s as [|c s IH]; [done |]. intros H. rewrite rstrip_cons.
  destruct s as [|d s].
  - simpl. by rewrite (H c eq_refl).
  - rewrite IH by (intros c' Hc'; by apply H). done.
Qed.

Lemma filter_sublist {A} (f : A -> bool) (l : list A) :
  sublist (List.filter f l) l.
Proof.
  induction l as [|x l IH]; [constructor |]. simpl.
  destruct (f x); by constructor.
Qed.

Lemma basename_no_sep (path : string) : Str.mem os_sep (basename path) = false.
Proof.
  unfold basename.
  apply (last_Forall _ _ _ (split_pieces os_sep path)), split_nonempty.
Qed.

End PathFacts.

(** The source locator returns, in the order of the listing, exactly the
    listed files that end in [.py] and in which no exclusion pattern
    occurs. *)
Theorem search_modules_spec (rt : Runtime) (target : string)
    (exclude_pattern : list string) :
  sublist (_search_modules rt target exclude_pattern)
          (glob_recursive rt (target +:+ "/**/*")) /\
  forall f,
    In f (_search_modules rt target exclude_pattern) <->
    In f (glob_recursive rt (target +:+ "/**/*")) /\
    (exists stem, f = stem +:+ ".py") /\
    (forall x, In x exclude_pattern -> ~ occurs_in x f).
Proof.
  split; [apply filter_sublist |]. intros f. unfold _search_modules.
  rewrite filter_In, andb_true_iff, negb_true_iff, endswith_iff.
  unfold excluded. split.
  - intros (Hin & Hex & Hpy). split_and!; [done | done |].
    intros x Hx Hocc. apply contains_occurs in Hocc.
    assert (existsb (fun x => Str.contains x f) exclude_pattern = true)
      by (apply existsb_exists; eauto).
    congruence.
  - intros (Hin & Hpy & Hex). split_and!; [done | | done].
    destruct (existsb _ _) eqn:E; [| done].
    apply existsb_exists in E as (x & Hx & Hc).
    apply contains_occurs in Hc. by destruct (Hex x Hx).
Qed.

(** The directory part and the file name of a path that holds a
    separator, joined by the separator, are the path; a path without
    separator has the empty directory part and is its own file name; the
    file name holds no separator. *)
Theorem extract_module_name_rejoin (path : string) :
  Str.mem os_sep (basename path) = false /\
  (Str.mem os_sep path = true ->
   path = fst (_extract_module_name path) +:+ "/" +:+ basename path) /\
  (Str.mem os_sep path = false ->
   fst (_extract_module_name path) = "" /\ basename path = path).
Proof.
  split; [apply basename_no_sep |]. unfold basename. split.
  - intros Hsep. destruct (split_two _ _ Hsep) as (a & b & rest & E).
    pose proof (split_join os_sep path) as Hj.
    unfold _extract_module_name. simpl fst.
    rewrite (app_removelast_last "" (split_nonempty os_sep path)) in Hj.
    rewrite join_snoc in Hj; [symmetry; exact Hj |].
    rewrite E. simpl. by destruct rest.
  - intros Hsep. unfold _extract_module_name. simpl fst.
    by rewrite (split_no_sep _ _ Hsep).
Qed.

(** For a file [stem.py] whose stem does not end in '.', 'p' or 'y' the
    module name is the stem; when the stem holds no dot either,
    [_extract_filename] gives the same name. *)
Theorem module_name_is_stem (path stem : string) :
  basename path = stem +:+ ".py" ->
  (forall c, Str.last_char stem = Some c -> Str.mem c ".py" = false) ->
  snd (_extract_module_name path) = stem /\
  (no_dot stem -> _extract_filename path = stem).
Proof.
  unfold basename. intros Hb Hlast. split.
  - unfold _extract_module_name. simpl snd. rewrite Hb.
    rewrite rstrip_app_all by reflexivity. by apply rstrip_fixed.
  - intros Hdot. unfold _extract_filename. rewrite Hb.
    change (stem +:+ ".py") with (stem +:+ String "."%char "py").
    by rewrite (split_app_sep _ _ _ Hdot).
Qed.

Lemma module_name_is_stem_models :
  snd (_extract_module_name "pkg/models.py") = "models" /\
  (no_dot "models" -> _extract_filename "pkg/models.py" = "models").
Proof.
  apply (module_name_is_stem "pkg/models.py" "models"); [reflexivity |].
  intros c [= <-]. reflexivity.
Defined.

(** [_extract_filename] gives the file name up to its first dot: the
    result holds neither a dot nor a separator, and the file name is the
    result, alone or followed by a dot and the rest. *)
Theorem extract_filename_spec (filename : string) :
  Str.mem "."%char (_extract_filename filename) = false /\
  Str.mem os_sep (_extract_filename filename) = false /\
  (basename filename = _extract_filename filename \/
   exists rest,
     basename filename = _extract_filename filename +:+ "." +:+ rest).
Proof.
  unfold _extract_filename. fold (basename filename).
  pose proof (split_pieces "."%char (basename filename)) as Hp.
  pose proof (split_join "."%char (basename filename)) as Hj.
  destruct (Str.split "."%char (basename filename)) as [|h t] eqn:E;
    [by destruct (split_nonempty "."%char (basename filename)) |].
  apply Forall_cons in Hp as [Hh _]. simpl hd.
  assert (Hshape : basename filename = h \/
                   exists rest, basename filename = h +:+ "." +:+ rest).
  { destruct t as [|x t].
    - left. by rewrite <- Hj.
    - right. exists (Str.join "." (x :: t)). rewrite <- Hj. by rewrite join_cons. }
  split_and!; [done | | done].
  pose proof (basename_no_sep filename) as Hb.
  destruct Hshape as [Hs|[rest Hs]]; rewrite Hs in Hb; [done |].
  rewrite mem_app in Hb. by apply orb_false_iff in Hb as [? _].
Qed.

(** ** Dictionaries built by comprehension *)

Section Comprehension.
Context {V W : Type}.
Implicit Types (f : V -> result W) (items : dict V) (acc : dict W).

Lemma set_fresh (d : dict W) (k : string) (w : W) :
  ~ In k (Dict.keys d) -> Dict.set d k w = d ++ [(k, w)].
Proof.
  induction d as [|[k' w'] d IH]; [done |]. simpl. intros Hk.
  destruct (String.eqb_spec k' k) as [->|Hne]; [tauto |].
  f_equal. apply IH. tauto.
Qed.

Lemma get_set_eq (d : dict W) (k : string) (w : W) :
  Dict.get (Dict.set d k w) k = Some w.
Proof.
  induction d as [|[k' w'] d IH]; simpl.
  - by rewrite String.eqb_refl.
  - destruct (String.eqb_spec k' k) as [->|Hne]; simpl.
    + by rewrite String.eqb_refl.
    + destruct (String.eqb_spec k' k); [done | apply IH].
Qed.

Lemma get_set_ne (d : dict W) (k k' : string) (w : W) :
  k' <> k -> Dict.get (Dict.set d k w) k' = Dict.get d k'.
Proof.
  intros Hne. induction d as [|[k0 w0] d IH]; simpl.
  - destruct (String.eqb_spec k k'); [congruence | done].
  - destruct (String.eqb_spec k0 k) as [->|H0]; simpl.
    + destruct (String.eqb_spec k k'); [congruence | done].
    + destruct (String.eqb_spec k0 k'); [done | apply IH].
Qed.

Lemma comprehension_cons f k v items acc :
  dict_comprehension f ((k, v) :: items) acc =
    (w <- f v ;; dict_comprehension f items (Dict.set acc k w)).
Proof. reflexivity. Qed.

(** On a dictionary, the comprehension keeps the keys and their order
    and applies [f] to every value. *)
Lemma comprehension_total f (g : V -> W) items :
  (forall kv, In kv items -> f (snd kv) = Ok (g (snd kv))) ->
  forall acc,
    NoDup (Dict.keys acc ++ Dict.keys items) ->
    dict_comprehension f items acc
      = Ok (acc ++ map (fun kv => (fst kv, g (snd kv))) items).
Proof.
  induction items as [|[k v] items IH]; intros Hf acc Hnd.
  - simpl. by rewrite app_nil_r.
  - pose proof (Hf (k, v) (or_introl eq_refl)) as Hv. simpl in Hv.
    rewrite comprehension_cons, Hv. cbn [bind].
    change (Dict.keys ((k, v) :: items)) with (k :: Dict.keys items) in Hnd.
    assert (Hfresh : ~ In k (Dict.keys acc)).
    { apply NoDup_app in Hnd as (_ & Hdisj & _). intros Hin.
      apply (Hdisj k); [by apply list_elem_of_In | by left]. }
    rewrite (set_fresh _ _ _ Hfresh). rewrite IH.
    + simpl. by rewrite <- app_assoc.
    + intros kv Hkv. apply Hf. by right.
    + unfold Dict.keys in *. rewrite map_app, <- app_assoc. exact Hnd.
Qed.

Lemma comprehension_ok_inv f items :
  forall acc r,
    dict_comprehension f items acc = Ok r ->
    forall kv, In kv items -> exists w, f (snd kv) = Ok w.
Proof.
  induction items as [|[k v] items IH]; intros acc r Hr kv; [done |].
  rewrite comprehension_cons in Hr.
  destruct (f v) as [w|e] eqn:E; [| done]. cbn [bind] in Hr.
  intros [<-|Hin]; [by exists w | by apply (IH _ _ Hr)].
Qed.


(** When [f] can raise one exception only, one value on which it raises
    makes the comprehension raise it. *)
Lemma comprehension_raises f (e : exception) items :
  (forall v e', f v = Raise e' -> e' = e) ->
  forall kv e0, In kv items -> f (snd kv) = Raise e0 ->
  forall acc, dict_comprehension f items acc = Raise e.
Proof.
  intros Hone. induction items as [|[k v] items IH]; intros kv e0 Hin Hr acc;
    [done |].
  rewrite comprehension_cons. destruct (f v) as [w|e'] eqn:E.
  - cbn [bind]. destruct Hin as [<-|Hin]; [simpl in Hr; congruence |].
    by apply IH with kv e0.
  - cbn [bind]. by rewrite (Hone _ _ E).
Qed.

End Comprehension.

Section Annotations.

Lemma get_fullname_raise_inv (v : PyValue) (e : exception) :
  _get_fullname v = Raise e -> e = AttributeError "__name__".
Proof.
  unfold _get_fullname, getattr_name.
  destruct (v_module v), (v_name v); simpl; congruence.
Qed.

Lemma getattr_name_raise_inv (v : PyValue) (e : exception) :
  getattr_name v = Raise e -> e = AttributeError "__name__".
Proof. unfold getattr_name. destruct (v_name v); congruence. Qed.

Lemma not_nameable_raises (v : PyValue) :
  ~ nameable v -> _get_fullname v = Raise (AttributeError "__name__").
Proof.
  unfold nameable. intros H.
  destruct (v_module v) as [m|] eqn:Em; [| tauto].
  destruct (v_name v) as [n|] eqn:En; [by destruct H; right |].
  by apply get_fullname_raises with m.
Qed.

Lemma fullname_comprehension (items : dict PyValue) :
  Dict.wf items ->
  (forall kv, In kv items -> nameable (snd kv)) ->
  dict_comprehension _get_fullname items [] = Ok (render_annotations items).
Proof.
  intros Hwf Hn. unfold render_annotations.
  rewrite (comprehension_total _get_fullname three_tier_rule items); [done | |].
  - intros kv Hkv. by apply get_fullname_nameable, Hn.
  - exact Hwf.
Qed.

Lemma fullname_comprehension_raises (items : dict PyValue) kv :
  In kv items -> ~ nameable (snd kv) ->
  dict_comprehension _get_fullname items [] = Raise (AttributeError "__name__").
Proof.
  intros Hin Hn.
  apply comprehension_raises with kv (AttributeError "__name__").
  - apply get_fullname_raise_inv.
  - done.
  - by apply not_nameable_raises.
Qed.

Lemma fullname_comprehension_ok_inv (items : dict PyValue) r :
  dict_comprehension _get_fullname items [] = Ok r ->
  forall kv, In kv items -> nameable (snd kv).
Proof.
  intros Hr kv Hin. destruct (comprehension_ok_inv _ _ _ _ Hr kv Hin) as [w Hw].
  unfold nameable. unfold _get_fullname, getattr_name in Hw.
  destruct (v_module (snd kv)), (v_name (snd kv)); simpl in Hw;
    try done; first [by left | by right].
Qed.

Lemma get_render (items : dict PyValue) (k : string) :
  Dict.get (render_annotations items) k = three_tier_rule <$> Dict.get items k.
Proof.
  induction items as [|[k' v] items IH]; [done |]. simpl.
  by destruct (String.eqb k' k).
Qed.

End Annotations.

(** The annotations of a class and of a method are rendered entry by
    entry, in order, by the three-tier rule when each of them can be
    named; one annotation that shows a [__module__] and no [__name__]
    makes the whole call raise [AttributeError]. *)
Theorem annotations_rendered (klass : PyClass) (a : dict PyValue) :
  Dict.wf (cls_annotations klass) -> Dict.wf a ->
  ((forall kv, In kv (cls_annotations klass) -> nameable (snd kv)) ->
   _get_annotations klass = Ok (render_annotations (cls_annotations klass))) /\
  (forall kv, In kv (cls_annotations klass) -> ~ nameable (snd kv) ->
   _get_annotations klass = Raise (AttributeError "__name__")) /\
  ((forall kv, In kv a -> nameable (snd kv)) ->
   _get_method_annotation (FunctionType a) = Ok (render_annotations a)) /\
  (forall kv, In kv a -> ~ nameable (snd kv) ->
   _get_method_annotation (FunctionType a) = Raise (AttributeError "__name__")).
Proof.
  intros Hwf Hwfa. split_and!.
  - by apply fullname_comprehension.
  - intros kv. by apply fullname_comprehension_raises.
  - by apply fullname_comprehension.
  - intros kv. by apply fullname_comprehension_raises.
Qed.

Lemma annotations_rendered_measure :
  _get_annotations Samples.account = Ok [("_private", "builtins.int")] /\
  _get_annotations MoreSamples.measure = Raise (AttributeError "__name__").
Proof.
  assert (Hwf : forall d : dict PyValue,
            bool_decide (NoDup (Dict.keys d)) = true -> Dict.wf d).
  { intros d H. by apply bool_decide_eq_true_1 in H. }
  split.
  - apply (annotations_rendered Samples.account []); [by apply Hwf | by apply Hwf |].
    intros kv [<-|[]]. by right.
  - apply (annotations_rendered MoreSamples.measure [])
      with ("unit", Samples.instance_value);
      [by apply Hwf | by apply Hwf | by left |].
    intros [H|H]; [done | by apply H].
Defined.

(** ** Fields of the two styles *)

Section Fields.

Lemma classic_fields_loop_cons klass ms k ks acc :
  _get_classic_fields_loop klass ms (k :: ks) acc =
    if Str.startswith k "__" || Dict.contains ms k
    then _get_classic_fields_loop klass ms ks acc
    else annotations <- _get_annotations klass ;;
         _get_classic_fields_loop klass ms ks
           (Dict.set acc k (default "" (Dict.get annotations k))).
Proof. reflexivity. Qed.

Lemma keeps_classic_field_skip ms k :
  keeps_classic_field ms k = negb (Str.startswith k "__" || Dict.contains ms k).
Proof. unfold keeps_classic_field. by rewrite negb_orb. Qed.

(** The loop of the classic style: the kept keys are appended in order,
    each bound to the rendering of its annotation or to the empty
    string; earlier entries are left alone. *)
Lemma classic_fields_loop_spec klass ms (ks : list string) :
  forall acc fs,
    NoDup (Dict.keys acc ++ ks) ->
    _get_classic_fields_loop klass ms ks acc = Ok fs ->
    Dict.keys fs = Dict.keys acc ++ List.filter (keeps_classic_field ms) ks /\
    (forall k, In k (Dict.keys acc) -> Dict.get fs k = Dict.get acc k) /\
    (forall k, In k (List.filter (keeps_classic_field ms) ks) ->
       exists annotations,
         _get_annotations klass = Ok annotations /\
         Dict.get fs k = Some (default "" (Dict.get annotations k))).
Proof.
  induction ks as [|k ks IH]; intros acc fs Hnd Hloop.
  - simpl in Hloop. injection Hloop as <-. simpl. by rewrite app_nil_r.
  - rewrite classic_fields_loop_cons in Hloop.
    change (List.filter (keeps_classic_field ms) (k :: ks))
      with (if keeps_classic_field ms k
            then k :: List.filter (keeps_classic_field ms) ks
            else List.filter (keeps_classic_field ms) ks).
    rewrite keeps_classic_field_skip.
    assert (Hfresh : ~ In k (Dict.keys acc)).
    { apply NoDup_app in Hnd as (_ & Hdisj & _). intros Hin.
      apply (Hdisj k); [by apply list_elem_of_In | by left]. }
    assert (Hnd' : NoDup (Dict.keys acc ++ ks)).
    { apply NoDup_app in Hnd as (Ha & Hdisj & Hks).
      apply NoDup_cons in Hks as [_ Hks]. apply NoDup_app. split_and!; [done | | done].
      intros x Hx Hx'. apply (Hdisj x Hx). by right. }
    destruct (Str.startswith k "__" || Dict.contains ms k); cbn [negb].
    + by apply IH.
    + destruct (_get_annotations klass) as [annotations|e] eqn:Ea; [| done].
      cbn [bind] in Hloop.
      assert (Hnd'' : NoDup (Dict.keys (Dict.set acc k
                               (default "" (Dict.get annotations k))) ++ ks)).
      { rewrite (keys_set_fresh _ _ _ Hfresh), <- app_assoc. exact Hnd. }
      destruct (IH _ _ Hnd'' Hloop) as (Hkeys & Hold & Hnew).
      rewrite (keys_set_fresh _ _ _ Hfresh), <- app_assoc in Hkeys.
      split_and!; [exact Hkeys | |].
      * intros k' Hk'. rewrite Hold.
        -- apply get_set_ne. by intros ->.
        -- apply keys_set_elem. by left.
      * intros k' [<-|Hk'].
        -- exists annotations. split; [done |].
           rewrite Hold by (apply keys_set_elem; by right).
           apply get_set_eq.
        -- by apply Hnew.
Qed.



Lemma normalize_all_cons c rest acc :
  normalize_all (c :: rest) acc =
    (s <- _get_class_structure c ;; normalize_all rest (acc ++ [s])).
Proof. reflexivity. Qed.

Lemma normalize_all_acc (classes_list : list PyClass) :
  forall acc r,
    normalize_all classes_list acc = Ok r ->
    exists ss, r = acc ++ ss /\
               Forall2 (fun c s => _get_class_structure c = Ok s) classes_list ss.
Proof.
  induction classes_list as [|c rest IH]; intros acc r Hr.
  - simpl in Hr. injection Hr as <-. exists []. by rewrite app_nil_r.
  - rewrite normalize_all_cons in Hr.
    destruct (_get_class_structure c) as [s|e] eqn:E; [| done]. cbn [bind] in Hr.
    destruct (IH _ _ Hr) as (ss & -> & Hss). exists (s :: ss).
    split; [by rewrite <- app_assoc | by constructor].
Qed.

Lemma normalize_all_raises (classes_list : list PyClass) c e0 :
  In c classes_list -> _get_class_structure c = Raise e0 ->
  forall acc, exists e, normalize_all classes_list acc = Raise e.
Proof.
  induction classes_list as [|c' rest IH]; intros Hin Hc acc; [done |].
  rewrite normalize_all_cons.
  destruct (_get_class_structure c') as [s|e] eqn:E; cbn [bind]; [| by eexists].
  destruct Hin as [->|Hin]; [congruence | by apply IH].
Qed.

Lemma str_mem_head (c : ascii) (s : string) : Str.mem c (String c s) = true.
Proof. simpl. by rewrite Ascii.eqb_refl. Qed.

(** A dotted name whose last part holds no dot is split in one way. *)
Lemma dotted_split_unique (m n : string) :
  forall m' n',
    no_dot n -> no_dot n' ->
    m +:+ String "."%char n = m' +:+ String "."%char n' -> m = m' /\ n = n'.
Proof.
  unfold no_dot. induction m as [|c m IH]; intros m' n' Hn Hn' E.
  - destruct m' as [|c' m'].
    + rewrite !str_app_nil_l in E. by injection E.
    + rewrite str_app_nil_l, str_app_cons in E. injection E as <- ->.
      rewrite mem_app in Hn. apply orb_false_iff in Hn as [_ Hn].
      by rewrite str_mem_head in Hn.
  - destruct m' as [|c' m'].
    + rewrite str_app_nil_l, str_app_cons in E. injection E as -> <-.
      rewrite mem_app in Hn'. apply orb_false_iff in Hn' as [_ Hn'].
      by rewrite str_mem_head in Hn'.
    + rewrite !str_app_cons in E. injection E as -> E.
      destruct (IH _ _ Hn Hn' E) as [-> ->]. done.
Qed.

End Fields.

(** The fields of a normalized classic-style entity are the keys of its
    own dictionary that do not start with ["__"] and are no method, in
    dictionary order; each is bound to the rendering of its class
    annotation by the three-tier rule, or to the empty string when it has
    none.  A name that is annotated and has no value in the dictionary is
    no field. *)
Theorem classic_fields_spec (klass : PyClass) (cd : ClassDef) :
  cls_dataclass_fields klass = None ->
  Dict.wf (cls_dict klass) -> Dict.wf (cls_annotations klass) ->
  _get_class_structure klass = Ok cd ->
  Dict.keys (fields cd)
    = List.filter (keeps_classic_field (methods cd)) (Dict.keys (cls_dict klass)) /\
  (forall k, In k (Dict.keys (fields cd)) ->
     Dict.get (fields cd) k
       = Some (default "" (three_tier_rule <$> Dict.get (cls_annotations klass) k))) /\
  (forall k, In k (Dict.keys (fields cd)) ->
     In k (Dict.keys (cls_dict klass)) /\ ~ In k (Dict.keys (methods cd))).
Proof.
  intros Hstyle Hwf Hwfa Hcd.
  pose proof (class_structure_methods _ _ Hcd) as Hm.
  destruct (class_structure_parts _ _ Hcd) as (cs & Hcs & Hf & _).
  unfold is_dataclass in Hcs. rewrite Hstyle in Hcs.
  unfold _get_classic_class_structure in Hcs. rewrite Hm in Hcs. cbn [bind] in Hcs.
  destruct (_get_classic_fields_loop _ _ _ _) as [fs|e] eqn:Hloop; [| done].
  cbn [bind] in Hcs. injection Hcs as <-. simpl in Hf. rewrite Hf.
  destruct (classic_fields_loop_spec _ _ _ [] fs Hwf Hloop) as (Hkeys & _ & Hval).
  simpl in Hkeys. split_and!; [exact Hkeys | |].
  - intros k Hk. rewrite Hkeys in Hk.
    destruct (Hval k Hk) as (annotations & Ha & ->). do 2 f_equal.
    unfold _get_annotations in Ha.
    rewrite (fullname_comprehension _ Hwfa) in Ha
      by (by apply fullname_comprehension_ok_inv with annotations).
    injection Ha as <-. apply get_render.
  - intros k Hk. rewrite Hkeys in Hk. apply filter_In in Hk as [Hin Hkeep].
    split; [done |]. unfold keeps_classic_field in Hkeep.
    apply andb_true_iff in Hkeep as [_ Hc]. apply negb_true_iff in Hc.
    intros Hmeth. apply contains_keys in Hmeth. congruence.
Qed.

Lemma classic_fields_spec_account :
  Dict.keys (fields Samples.account_structure) = ["_private"; "build"; "create"] /\
  Dict.get (fields Samples.account_structure) "_private" = Some "builtins.int".
Proof.
  assert (Hwf : Dict.wf (cls_dict Samples.account)).
  { unfold Dict.wf. refine (bool_decide_unpack _ _). vm_compute. exact I. }
  assert (Hwfa : Dict.wf (cls_annotations Samples.account)).
  { unfold Dict.wf. refine (bool_decide_unpack _ _). vm_compute. exact I. }
  destruct (classic_fields_spec Samples.account Samples.account_structure eq_refl
              Hwf Hwfa eq_refl) as (Hk & Hv & _).
  split; [exact Hk |]. apply Hv. simpl. tauto.
Defined.

(** The fields of a normalized declarative-style entity are the declared
    fields, in order, each bound to the bare [__name__] of its type; the
    class dictionary plays no part.  A field whose type shows no
    [__name__] makes normalization raise [AttributeError]. *)
Theorem dataclass_fields_spec (klass : PyClass) (dc : dict PyValue) :
  cls_dataclass_fields klass = Some dc ->
  Dict.wf dc ->
  (forall cd, _get_class_structure klass = Ok cd ->
     fields cd = map (fun kv => (fst kv, default "" (v_name (snd kv)))) dc /\
     (forall kv, In kv dc -> v_name (snd kv) <> None)) /\
  (forall kv, In kv dc -> v_name (snd kv) = None ->
     _get_class_structure klass = Raise (AttributeError "__name__")).
Proof.
  intros Hdc Hwf. split.
  - intros cd Hcd.
    destruct (class_structure_parts _ _ Hcd) as (cs & Hcs & Hf & _).
    unfold is_dataclass in Hcs. rewrite Hdc in Hcs.
    unfold _get_dataclass_structure, getattr_dataclass_fields in Hcs.
    rewrite Hdc in Hcs. cbn [bind] in Hcs.
    destruct (dict_comprehension getattr_name dc []) as [fs|e] eqn:Hfs; [| done].
    cbn [bind] in Hcs. destruct (_get_methods klass) as [ms|e]; [| done].
    cbn [bind] in Hcs. injection Hcs as <-. simpl in Hf. rewrite Hf.
    assert (Hnamed : forall kv, In kv dc -> v_name (snd kv) <> None).
    { intros kv Hin. destruct (comprehension_ok_inv _ _ _ _ Hfs kv Hin) as [w Hw].
      unfold getattr_name in Hw. by destruct (v_name (snd kv)). }
    split; [| exact Hnamed].
    rewrite (comprehension_total getattr_name
               (fun v => default "" (v_name v)) dc) in Hfs.
    + by injection Hfs as <-.
    + intros kv Hin. specialize (Hnamed kv Hin). unfold getattr_name.
      by destruct (v_name (snd kv)).
    + exact Hwf.
  - intros kv Hin Hnone. unfold _get_class_structure, is_dataclass.
    rewrite Hdc. unfold _get_dataclass_structure, getattr_dataclass_fields.
    rewrite Hdc. cbn [bind].
    rewrite (comprehension_raises getattr_name (AttributeError "__name__") dc
               getattr_name_raise_inv kv (AttributeError "__name__") Hin); [done |].
    unfold getattr_name. by rewrite Hnone.
Qed.

Lemma dataclass_fields_spec_point :
  exists cd, _get_class_structure Samples.data_point = Ok cd /\
             fields cd = [("x", "int")].
Proof.
  assert (Hwf : Dict.wf [("x", value_of_type Samples.int_type)]).
  { unfold Dict.wf. refine (bool_decide_unpack _ _). vm_compute. exact I. }
  destruct (dataclass_fields_spec Samples.data_point
              [("x", value_of_type Samples.int_type)] eq_refl Hwf) as [Hok _].
  eexists. split; [reflexivity |]. by destruct (Hok _ eq_refl) as [-> _].
Defined.

(** ** When normalization returns *)



(** The structures returned for a list of classes are one per class, in
    the order of the list, each the normalization of its class and named
    by the full name of its class. *)
Theorem normalize_all_in_order (classes_list : list PyClass) (r : list ClassDef) :
  normalize_all classes_list [] = Ok r ->
  Forall2 (fun c s => _get_class_structure c = Ok s) classes_list r /\
  List.length r = List.length classes_list /\
  map name r = map (fun c => fullname_of_type (cls_type c)) classes_list.
Proof.
  intros Hr. destruct (normalize_all_acc _ _ _ Hr) as (ss & -> & Hss).
  simpl. split; [done |]. split.
  - symmetry. by apply Forall2_length in Hss.
  - clear Hr. induction Hss as [|c s cs ss Hc _ IH]; [done |].
    simpl. rewrite IH. f_equal. by destruct (class_structure_bases _ _ Hc) as [_ ->].
Qed.

Lemma normalize_all_in_order_samples :
  map name [Samples.account_structure; Samples.derived_structure]
    = ["bank.Account"; "shapes.Derived"].
Proof.
  by destruct (normalize_all_in_order [Samples.account; Samples.derived]
                 [Samples.account_structure; Samples.derived_structure] eq_refl)
    as (_ & _ & ->).
Defined.

(** When the bare names in the resolution order hold no dot, the name of
    a normalized entity is its module, a dot and its bare name, and
    neither that name nor the root type's is among its bases. *)
Theorem bases_exclude_self_and_root (klass : PyClass) (cd : ClassDef) :
  (forall c, In c (cls_mro klass) -> no_dot (ty_name c)) ->
  no_dot (cls_name klass) ->
  _get_class_structure klass = Ok cd ->
  name cd = module cd +:+ "." +:+ cls_name klass /\
  name cd <> "" /\
  ~ In (name cd) (bases cd) /\
  ~ In "builtins.object" (bases cd).
Proof.
  intros Hmro Hself Hcd.
  destruct (class_structure_bases _ _ Hcd) as [Hb Hn].
  destruct (class_structure_parts _ _ Hcd) as (_ & _ & _ & _ & Hmod & _).
  assert (Hkept : forall b, In b (bases cd) ->
            exists t, b = fullname_of_type t /\ no_dot (ty_name t) /\
                      ty_name t <> "object" /\ ty_name t <> cls_name klass).
  { intros b Hin. rewrite Hb in Hin. apply in_map_iff in Hin as (t & <- & Ht).
    apply filter_In in Ht as [Ht Hk]. exists t. split_and!; [done | by apply Hmro | |].
    - unfold base_class_kept in Hk. apply negb_true_iff, orb_false_iff in Hk as [Hk _].
      by apply String.eqb_neq.
    - unfold base_class_kept in Hk. apply negb_true_iff, orb_false_iff in Hk as [_ Hk].
      by apply String.eqb_neq. }
  split_and!.
  - by rewrite Hn, Hmod.
  - rewrite Hn. unfold fullname_of_type. by destruct (ty_module (cls_type klass)).
  - intros Hin. destruct (Hkept _ Hin) as (t & Ht & Hdot & _ & Hne).
    rewrite Hn in Ht. unfold fullname_of_type in Ht.
    apply (dotted_split_unique _ _ _ _ Hself Hdot) in Ht as [_ Ht].
    by destruct Hne.
  - intros Hin. destruct (Hkept _ Hin) as (t & Ht & Hdot & Hne & _).
    unfold fullname_of_type in Ht.
    change "builtins.object" with ("builtins" +:+ String "."%char "object") in Ht.
    apply (dotted_split_unique "builtins" "object" _ _ eq_refl Hdot) in Ht
      as [_ Ht].
    by destruct Hne.
Qed.

Lemma bases_exclude_self_and_root_derived :
  ~ In "shapes.Derived" (bases Samples.derived_structure) /\
  ~ In "builtins.object" (bases Samples.derived_structure).
Proof.
  assert (Hmro : forall c, In c (cls_mro Samples.derived) -> no_dot (ty_name c)).
  { intros c [<-|[<-|[<-|[]]]]; reflexivity. }
  by destruct (bases_exclude_self_and_root Samples.derived Samples.derived_structure
                 Hmro eq_refl eq_refl) as (_ & _ & H1 & H2).
Defined.

(** ** Runs *)

Section Runs.
Variable rt : Runtime.

Lemma cons_ne_self {A} (x : A) (l : list A) : x :: l <> l.
Proof.
  intros H. apply (f_equal (@List.length A)) in H. simpl in H. lia.
Qed.


Lemma create_diagram_output (classes_list : list ClassDef) (verbose : bool) :
  snd (create_diagram classes_list verbose)
    = if verbose then map verbose_line classes_list else [].
Proof.
  unfold create_diagram. rewrite create_diagram_loop_spec. by destruct verbose.
Qed.

End Runs.

(** The verbose flag does not change the graph: it only adds one progress
    line per entity, in list order.  Every edge of the graph ends in the
    key of a node; its start need not be one. *)
Theorem diagram_verbose_and_edge_heads (classes_list : list ClassDef) :
  fst (create_diagram classes_list true) = fst (create_diagram classes_list false) /\
  snd (create_diagram classes_list false) = [] /\
  snd (create_diagram classes_list true) = map verbose_line classes_list /\
  (forall verbose b d,
     (b, d) ∈ g_edges (fst (create_diagram classes_list verbose)) ->
     In d (map fst (g_nodes (fst (create_diagram classes_list verbose))))).
Proof.
  split_and!.
  - by rewrite !create_diagram_graph.
  - by rewrite create_diagram_output.
  - by rewrite create_diagram_output.
  - intros verbose b d. rewrite create_diagram_graph. simpl.
    rewrite elem_of_list_to_set, list_elem_of_In, in_edges_of.
    intros (k & Hk & <- & _). rewrite map_map. simpl.
    apply in_map_iff. by exists k.
Qed.

(** An edge may start at a name that is no node: a base outside the
    analysed classes. *)
Example diagram_dangling_base :
  let g := fst (create_diagram [Samples.derived_structure] false) in
  ("shapes.Base", "shapes.Derived") ∈ g_edges g /\
  ~ In "shapes.Base" (map fst (g_nodes g)).
Proof.
  intros g. subst g. rewrite create_diagram_graph. simpl. split.
  - unfold edges_of. simpl. set_solver.
  - intros [H|[]]. discriminate H.
Qed.

(** After a file whose import raises, whatever the exception, the
    directory of the file stays first on [sys.path] when the import
    itself left the path alone: the path is not what it was before. *)
Theorem failed_load_leaves_directory (rt : Runtime) (path : string)
    (w w2 : World) (e : exception) :
  import_of rt path w = (Raise e, w2) ->
  sys_path w2 = sys_path (world_at_import path w) ->
  sys_path (snd (_get_classes_from_module rt path w))
    = fst (_extract_module_name path) :: sys_path w /\
  sys_path (snd (_get_classes_from_module rt path w)) <> sys_path w.
Proof.
  intros Him Hpath.
  rewrite (loader_keeps_path_on_failure _ _ _ _ _ Him), Hpath. simpl.
  split; [done | apply cons_ne_self].
Qed.

Lemma failed_load_leaves_directory_broken :
  sys_path (snd (_get_classes_from_module Samples.runtime "proj/broken.py"
                   Samples.world0))
    = ["proj"; "/usr/lib/python3"].
Proof.
  by destruct (failed_load_leaves_directory Samples.runtime "proj/broken.py"
                 Samples.world0 (world_at_import "proj/broken.py" Samples.world0)
                 (Exception "SyntaxError" "invalid syntax") eq_refl eq_refl)
    as [-> _].
Defined.





(** A class that cannot be normalized ends the run although its file
    loaded: the [AttributeError] leaves [load_classes_definition]
    uncaught, without styled message and with nothing added to the error
    stream. *)
Theorem normalization_error_ends_run (rt : Runtime) (source : string)
    (verbose : bool) (w : World) (classes_list : list PyClass)
    (c : PyClass) (e0 : exception) :
  os_path_exists rt source = true ->
  fst (load_files rt (source_files rt source) [] (enter_source rt source w))
    = Ok classes_list ->
  In c classes_list ->
  _get_class_structure c = Raise e0 ->
  (exists attr,
     fst (load_classes_definition rt source verbose w)
       = Raise (AttributeError attr)) /\
  ~ aborted_with_styled_message (load_classes_definition rt source verbose w) /\
  stderr (snd (load_classes_definition rt source verbose w))
    = stderr (snd (load_files rt (source_files rt source) []
                     (enter_source rt source w))).
Proof.
  intros Hex Hload Hin Hc.
  destruct (normalize_all_raises _ _ _ Hin Hc []) as [e He].
  destruct (only_attr_normalize_all _ _ _ He) as [attr ->].
  rewrite (load_classes_present _ _ _ _ Hex).
  destruct (load_files rt _ [] _) as [r w']. simpl in Hload. subst r. simpl.
  rewrite He. split_and!; [by exists attr | | done].
  intros (code & message & Hr & _). simpl in Hr. discriminate Hr.
Qed.

Lemma normalization_error_ends_run_measure :
  exists attr,
    fst (load_classes_definition MoreSamples.runtime_measure "m.py" false
           Samples.world0)
      = Raise (AttributeError attr).
Proof.
  by destruct (normalization_error_ends_run MoreSamples.runtime_measure "m.py" false
                 Samples.world0 [MoreSamples.measure] MoreSamples.measure
                 (AttributeError "__name__") eq_refl eq_refl
                 (or_introl eq_refl) eq_refl) as [H _].
Defined.

(** ** Annotations of the methods *)

Lemma get_methods_loop_values (items : dict PyMember) :
  forall acc ms,
    NoDup (Dict.keys acc ++ Dict.keys items) ->
    _get_methods_loop items acc = Ok ms ->
    (forall k, In k (Dict.keys acc) -> Dict.get ms k = Dict.get acc k) /\
    (forall k a, In (k, FunctionType a) items -> Str.startswith k "__" = false ->
       exists r, _get_method_annotation (FunctionType a) = Ok r /\
                 Dict.get ms k = Some r).
Proof.
  induction items as [|[k v] rest IH]; intros acc ms Hnd Hloop.
  - simpl in Hloop. injection Hloop as <-. by split.
  - rewrite get_methods_loop_cons in Hloop.
    change (Dict.keys ((k, v) :: rest)) with (k :: Dict.keys rest) in Hnd.
    assert (Hfresh : ~ In k (Dict.keys acc)).
    { apply NoDup_app in Hnd as (_ & Hdisj & _). intros Hin.
      apply (Hdisj k); [by apply list_elem_of_In | by left]. }
    assert (Hnd' : NoDup (Dict.keys acc ++ Dict.keys rest)).
    { apply NoDup_app in Hnd as (Ha & Hdisj & Hks).
      apply NoDup_cons in Hks as [_ Hks]. apply NoDup_app. split_and!; [done | | done].
      intros x Hx Hx'. apply (Hdisj x Hx). by right. }
    destruct (Str.startswith k "__") eqn:Hd; cbn [orb] in Hloop.
    { destruct (IH _ _ Hnd' Hloop) as [Hold Hnew]. split; [done |].
      intros k' a [[= -> ->]|Hin] Hd'; [congruence | by apply Hnew]. }
    destruct v as [b| | |]; cbn [isinstance_FunctionType negb] in Hloop.
    2-4: (destruct (IH _ _ Hnd' Hloop) as [Hold Hnew]; split; [done |];
          intros k' a [[=]|Hin] Hd'; by apply Hnew).
    destruct (_get_method_annotation (FunctionType b)) as [r|e] eqn:Er; [| done].
    cbn [bind] in Hloop.
    assert (Hnd'' : NoDup (Dict.keys (Dict.set acc k r) ++ Dict.keys rest)).
    { rewrite (keys_set_fresh _ _ _ Hfresh), <- app_assoc. exact Hnd. }
    destruct (IH _ _ Hnd'' Hloop) as [Hold Hnew]. split.
    + intros k' Hk'. rewrite Hold by (apply keys_set_elem; by left).
      apply get_set_ne. by intros ->.
    + intros k' a [[= -> ->]|Hin] Hd'; [| by apply Hnew].
      exists r. split; [done |].
      rewrite Hold by (apply keys_set_elem; by right). apply get_set_eq.
Qed.

(** Each kept method of a normalized entity is bound to its annotations
    rendered one by one, in order, by the three-tier rule: parameter and
    return names with the printable name of their type. *)
Theorem method_annotations_spec (klass : PyClass) (cd : ClassDef)
    (k : string) (a : dict PyValue) :
  Dict.wf (cls_dict klass) -> Dict.wf a ->
  _get_class_structure klass = Ok cd ->
  In (k, FunctionType a) (cls_dict klass) ->
  Str.startswith k "__" = false ->
  Dict.get (methods cd) k = Some (render_annotations a) /\
  (forall kv, In kv a -> nameable (snd kv)).
Proof.
  intros Hwf Hwfa Hcd Hin Hd.
  pose proof (class_structure_methods _ _ Hcd) as Hm. unfold _get_methods in Hm.
  destruct (get_methods_loop_values _ [] _ Hwf Hm) as [_ Hnew].
  destruct (Hnew k a Hin Hd) as (r & Hr & ->).
  unfold _get_method_annotation in Hr. cbn [getattr_annotations] in Hr.
  pose proof (fullname_comprehension_ok_inv _ _ Hr) as Hn.
  rewrite (fullname_comprehension _ Hwfa Hn) in Hr. by injection Hr as <-.
Qed.

Lemma method_annotations_spec_account :
  Dict.get (methods Samples.account_structure) "public_method"
    = Some [("return", "None")].
Proof.
  assert (Hwf : Dict.wf (cls_dict Samples.account)).
  { unfold Dict.wf. refine (bool_decide_unpack _ _). vm_compute. exact I. }
  assert (Hwfa : Dict.wf [("return", Samples.none_value)]).
  { unfold Dict.wf. refine (bool_decide_unpack _ _). vm_compute. exact I. }
  by destruct (method_annotations_spec Samples.account Samples.account_structure
                 "public_method" [("return", Samples.none_value)]
                 Hwf Hwfa eq_refl ltac:(simpl; tauto) eq_refl) as [-> _].
Defined.
